(** * YieldMapper: resolution and aggregation pipeline of [app.py]

    A shallow embedding of the dividend-yield tool's back end: the
    symbol caches, the two resolvers, the two dividend aggregators, the
    HKD/CNY rate lookup and the [/api/search] orchestrator, followed by
    the properties the written specification states about them.

    Conventions of the embedding.
    - A Python [str] is a list of Unicode code points ([pystr]); literals
      are written as UTF-8 and decoded by [u8].
    - A Python [float] that carries a value is an exact rational ([Q]);
      [NaN] is a separate constructor where the code can observe it.
      Binary rounding of doubles is not modelled.
    - Clock readings and timestamps are whole seconds since the epoch.
    - A table from the provider is a list of column labels and a list
      of rows.  As in pandas every row is as long as the label list;
      labels are taken to be distinct strings, none of them [_hkd], so
      that a column is addressed by its position.  pandas' column-wise
      coercions are taken cell by cell.
    - Calls into the market-data provider and the file system are
      threaded through a state-and-exception monad that also records
      which components and endpoints were invoked. *)

From Stdlib Require Import List ZArith NArith QArith Qround Qreduction Qabs.
From Stdlib Require Import Bool Lia Lqa Ascii String Permutation.
From Stdlib Require DecimalZ.
Import ListNotations.
Close Scope Q_scope.

Set Implicit Arguments.

(* ================================================================== *)
(** * Python strings *)

Module PyStr.

(** A code point. *)
Definition char := N.
Definition pystr := list char.

Record utf8_state := { u_acc : N; u_need : nat; u_out : list N }.

Definition utf8_step (s : utf8_state) (a : ascii) : utf8_state :=
  let b := N_of_ascii a in
  match u_need s with
  | O =>
      if (b <? 128)%N then {| u_acc := 0; u_need := 0; u_out := b :: u_out s |}
      else if (b <? 224)%N then {| u_acc := b - 192; u_need := 1; u_out := u_out s |}
      else if (b <? 240)%N then {| u_acc := b - 224; u_need := 2; u_out := u_out s |}
      else {| u_acc := b - 240; u_need := 3; u_out := u_out s |}
  | S O =>
      {| u_acc := 0; u_need := 0; u_out := (u_acc s * 64 + (b - 128))%N :: u_out s |}
  | S n =>
      {| u_acc := (u_acc s * 64 + (b - 128))%N; u_need := n; u_out := u_out s |}
  end.

Fixpoint utf8_fold (s : utf8_state) (t : string) : utf8_state :=
  match t with
  | EmptyString => s
  | String a t' => utf8_fold (utf8_step s a) t'
  end.

(** [u8 "..."] is the Python string whose UTF-8 encoding is the literal. *)
Definition u8 (t : string) : pystr :=
  rev (u_out (utf8_fold {| u_acc := 0; u_need := 0; u_out := [] |} t)).

Definition in_range (c lo hi : N) : bool := ((lo <=? c) && (c <=? hi))%N.

Definition in_ranges (tbl : list (N * N)) (c : N) : bool :=
  existsb (fun r => in_range c (fst r) (snd r)) tbl.

(** Code points for which [str.isspace] holds; [str.strip()] removes them. *)
Definition whitespace_table : list (N * N) :=
  [ (0x9, 0xd); (0x1c, 0x20); (0x85, 0x85); (0xa0, 0xa0); (0x1680, 0x1680);
    (0x2000, 0x200a); (0x2028, 0x2029); (0x202f, 0x202f); (0x205f, 0x205f);
    (0x3000, 0x3000) ]%N.

Definition is_space : char -> bool := in_ranges whitespace_table.

(** Decimal digits (general category Nd, Unicode 14.0): what [\d] matches
    in a [str] pattern and what [float] reads as a digit.  Every run
    starts at a zero, so the value of [c] in the run from [lo] is
    [(c - lo) mod 10]. *)
Definition decimal_table : list (N * N) :=
  [ (0x30, 0x39); (0x660, 0x669); (0x6f0, 0x6f9); (0x7c0, 0x7c9);
    (0x966, 0x96f); (0x9e6, 0x9ef); (0xa66, 0xa6f); (0xae6, 0xaef);
    (0xb66, 0xb6f); (0xbe6, 0xbef); (0xc66, 0xc6f); (0xce6, 0xcef);
    (0xd66, 0xd6f); (0xde6, 0xdef); (0xe50, 0xe59); (0xed0, 0xed9);
    (0xf20, 0xf29); (0x1040, 0x1049); (0x1090, 0x1099); (0x17e0, 0x17e9);
    (0x1810, 0x1819); (0x1946, 0x194f); (0x19d0, 0x19d9); (0x1a80, 0x1a89);
    (0x1a90, 0x1a99); (0x1b50, 0x1b59); (0x1bb0, 0x1bb9); (0x1c40, 0x1c49);
    (0x1c50, 0x1c59); (0xa620, 0xa629); (0xa8d0, 0xa8d9); (0xa900, 0xa909);
    (0xa9d0, 0xa9d9); (0xa9f0, 0xa9f9); (0xaa50, 0xaa59); (0xabf0, 0xabf9);
    (0xff10, 0xff19); (0x104a0, 0x104a9); (0x10d30, 0x10d39);
    (0x11066, 0x1106f); (0x110f0, 0x110f9); (0x11136, 0x1113f);
    (0x111d0, 0x111d9); (0x112f0, 0x112f9); (0x11450, 0x11459);
    (0x114d0, 0x114d9); (0x11650, 0x11659); (0x116c0, 0x116c9);
    (0x11730, 0x11739); (0x118e0, 0x118e9); (0x11950, 0x11959);
    (0x11c50, 0x11c59); (0x11d50, 0x11d59); (0x11da0, 0x11da9);
    (0x16a60, 0x16a69); (0x16ac0, 0x16ac9); (0x16b50, 0x16b59);
    (0x1d7ce, 0x1d7ff); (0x1e140, 0x1e149); (0x1e2f0, 0x1e2f9);
    (0x1e950, 0x1e959); (0x1fbf0, 0x1fbf9) ]%N.

(** Digits that are not decimals (superscripts, circled digits, ...):
    [str.isdigit] accepts them, [\d] and [float] do not. *)
Definition other_digit_table : list (N * N) :=
  [ (0xb2, 0xb3); (0xb9, 0xb9); (0x1369, 0x1371); (0x19da, 0x19da);
    (0x2070, 0x2070); (0x2074, 0x2079); (0x2080, 0x2089); (0x2460, 0x2468);
    (0x2474, 0x247c); (0x2488, 0x2490); (0x24ea, 0x24ea); (0x24f5, 0x24fd);
    (0x24ff, 0x24ff); (0x2776, 0x277e); (0x2780, 0x2788); (0x278a, 0x2792);
    (0x10a40, 0x10a43); (0x10e60, 0x10e68); (0x11052, 0x1105a);
    (0x1f100, 0x1f10a) ]%N.

Definition is_decimal : char -> bool := in_ranges decimal_table.

Fixpoint decimal_value_in (tbl : list (N * N)) (c : char) : option N :=
  match tbl with
  | [] => None
  | (lo, hi) :: tbl' =>
      if in_range c lo hi then Some ((c - lo) mod 10)%N
      else decimal_value_in tbl' c
  end.

Definition decimal_value : char -> option N := decimal_value_in decimal_table.

Definition is_digit_char (c : char) : bool :=
  is_decimal c || in_ranges other_digit_table c.

(** [s.isdigit()]: non-empty and every character a digit. *)
Definition isdigit (s : pystr) : bool :=
  match s with
  | [] => false
  | _ => forallb is_digit_char s
  end.

Fixpoint lstrip (s : pystr) : pystr :=
  match s with
  | c :: s' => if is_space c then lstrip s' else s
  | [] => []
  end.

(** [s.strip()]. *)
Definition strip (s : pystr) : pystr := rev (lstrip (rev (lstrip s))).

Fixpoint eqb (s t : pystr) : bool :=
  match s, t with
  | [], [] => true
  | c :: s', d :: t' => (c =? d)%N && eqb s' t'
  | _, _ => false
  end.

Fixpoint starts_with (p s : pystr) : bool :=
  match p, s with
  | [], _ => true
  | c :: p', d :: s' => (c =? d)%N && starts_with p' s'
  | _ :: _, [] => false
  end.

(** [p in s]: [p] occurs in [s] as a contiguous, case-sensitive substring. *)
Fixpoint contains (s p : pystr) : bool :=
  starts_with p s ||
  match s with
  | [] => false
  | _ :: s' => contains s' p
  end.

(** [s.zfill(5)]: left-pad with zeros, after a leading sign if any. *)
Definition zfill5 (s : pystr) : pystr :=
  let pad := repeat 0x30%N (5 - List.length s) in
  match s with
  | c :: s' => if ((c =? 0x2b) || (c =? 0x2d))%N then c :: pad ++ s' else pad ++ s
  | [] => pad
  end.

End PyStr.
Import PyStr.

(* ================================================================== *)
(** * Python floats *)

Module PyNum.

(** Nearest integer, ties to the even neighbour. *)
Definition round_half_even (q : Q) : Z :=
  let f := Qfloor q in
  match ((q - inject_Z f) ?= (1 # 2))%Q with
  | Lt => f
  | Gt => (f + 1)%Z
  | Eq => if Z.even f then f else (f + 1)%Z
  end.

(** [round(x, 6)]. *)
Definition round6 (x : Q) : Q :=
  Qred (round_half_even (x * inject_Z 1000000)%Q # 1000000).

(** A [float] as the code can observe it: a number, or NaN. *)
Inductive pyfloat :=
| Fnum (q : Q)
| Fnan.

Fixpoint Qsum (l : list Q) : Q :=
  match l with
  | [] => 0%Q
  | x :: l' => (x + Qsum l')%Q
  end.

Definition Qltb (x y : Q) : bool :=
  match (x ?= y)%Q with Lt => true | _ => false end.

Fixpoint digits_value (acc : N) (s : pystr) : option N :=
  match s with
  | [] => Some acc
  | c :: s' =>
      match decimal_value c with
      | Some d => digits_value (acc * 10 + d) s'
      | None => None
      end
  end.

Definition dot : char := 0x2e%N.

Fixpoint pow10 (n : nat) : positive :=
  match n with
  | O => 1
  | S n' => 10 * pow10 n'
  end%positive.

(** Splits at the first full stop. *)
Fixpoint split_dot (s : pystr) : pystr * option pystr :=
  match s with
  | [] => ([], None)
  | c :: s' =>
      if (c =? dot)%N then ([], Some s')
      else let (a, b) := split_dot s' in (c :: a, b)
  end.

(** [float(s)] for a string [s] of decimal digits and full stops, the
    only strings [_parse_hkd] passes to it: [None] is [ValueError].
    The literal needs a digit and has at most one full stop. *)
Definition float_of_literal (s : pystr) : option Q :=
  let (ip, rest) := split_dot s in
  let fp := match rest with Some f => f | None => [] end in
  match ip ++ fp with
  | [] => None
  | ds =>
      match digits_value 0 ds with
      | Some n => Some (Qred (Z.of_N n # pow10 (List.length fp)))
      | None => None
      end
  end.

End PyNum.
Import PyNum.

(* ================================================================== *)
(** * Exceptions *)

(** The exceptions the code can meet.  [UpstreamError] is whatever a
    provider call raises; the others come from the interpreter. *)
Inductive exn :=
| UpstreamError (msg : pystr)
| ValueError (arg : pystr)      (* float() on a malformed literal *)
| IndexError                    (* cols[i] or .iloc[i] out of range *)
| KeyError (key : pystr)        (* a column label that is not there *)
| TypeError                     (* subscripting None *)
| AttributeError.               (* an attribute of None *)

Inductive res (A : Type) :=
| Ok (a : A)
| Raise (e : exn).
Arguments Ok {A} a.
Arguments Raise {A} e.

(* ================================================================== *)
(** * HK distribution text: [_parse_hkd] *)

Module HkdText.

Definition c_gang  : char := 0x6e2f%N.   (* 港 *)
Definition c_bi_s  : char := 0x5e01%N.   (* 币 *)
Definition c_bi_t  : char := 0x5e63%N.   (* 幣 *)
Definition c_pai   : char := 0x6d3e%N.   (* 派 *)
Definition c_xi    : char := 0x606f%N.   (* 息 *)

(** The class [[\d.]]. *)
Definition num_char (c : char) : bool := is_decimal c || (c =? dot)%N.

(** The longest prefix of [s] in the class: what a greedy [[\d.]+] takes. *)
Fixpoint take_num (s : pystr) : pystr :=
  match s with
  | c :: s' => if num_char c then c :: take_num s' else []
  | [] => []
  end.

(** The fixed part of a pattern matched at the head of [s]: the text
    after it, if it matches. *)
Definition hkd_head (s : pystr) : option pystr :=        (* 港[币幣] *)
  match s with
  | c1 :: c2 :: s' =>
      if ((c1 =? c_gang) && ((c2 =? c_bi_s) || (c2 =? c_bi_t)))%N
      then Some s' else None
  | _ => None
  end.

Definition paixi_head (s : pystr) : option pystr :=      (* 派息 *)
  match s with
  | c1 :: c2 :: s' =>
      if ((c1 =? c_pai) && (c2 =? c_xi))%N then Some s' else None
  | _ => None
  end.

(** The pattern [head([\d.]+)] anchored at the head of [s]: group 1. *)
Definition match_here (head : pystr -> option pystr) (s : pystr) : option pystr :=
  match head s with
  | Some s' => match take_num s' with [] => None | g => Some g end
  | None => None
  end.

(** [re.search(head([\d.]+), s)]: group 1 of the leftmost match. *)
Fixpoint re_search (head : pystr -> option pystr) (s : pystr) : option pystr :=
  match match_here head s with
  | Some g => Some g
  | None => match s with
            | [] => None
            | _ :: s' => re_search head s'
            end
  end.

Definition py_float_str (g : pystr) : res Q :=
  match float_of_literal g with
  | Some q => Ok q
  | None => Raise (ValueError g)
  end.

Definition _parse_hkd (text : pystr) : res Q :=
  match re_search hkd_head text with
  | Some g => py_float_str g
  | None =>
      match re_search paixi_head text with
      | Some g => py_float_str g
      | None => Ok 0%Q
      end
  end.

End HkdText.
Import HkdText.

(* ================================================================== *)
(** * Values that come from the provider *)

(** What the interpreter and pandas do with an opaque table cell, and
    the texts the interpreter produces on its own.  None of this is in
    the repository; the code only calls it. *)
Class Runtime (cell : Type) := {
  py_str : cell -> pystr;                (* str(v) *)
  py_float : cell -> option pyfloat;     (* float(v); None when it raises *)
  as_text : cell -> option pystr;        (* v itself when v is a str *)
  to_numeric : cell -> option Q;         (* pd.to_numeric(v, errors='coerce'); None is NaN *)
  to_datetime : cell -> option Z;        (* pd.to_datetime(v, errors='coerce'); None is NaT *)
  interp_message : exn -> pystr;         (* str(e) for an interpreter exception *)
  repr_labels : list pystr -> pystr      (* the text of a list of labels in an f-string *)
}.

(** [str(e)]. *)
Definition str_exn {cell} `{Runtime cell} (e : exn) : pystr :=
  match e with
  | UpstreamError m => m
  | _ => interp_message e
  end.

(** A [DataFrame]: column labels and rows, in provider order.  Rows are
    as long as the label list and labels are distinct, as pandas keeps
    them; cells are then addressed by position. *)
Record frame (cell : Type) := {
  columns : list pystr;
  rows : list (list cell)
}.

Definition frame_empty {cell} (f : frame cell) : bool :=
  match columns f, rows f with
  | [], _ => true
  | _, [] => true
  | _, _ => false
  end.

Fixpoint col_index (labels : list pystr) (l : pystr) : option nat :=
  match labels with
  | [] => None
  | l' :: labels' =>
      if PyStr.eqb l' l then Some O
      else option_map S (col_index labels' l)
  end.

(** A symbol-cache record: [{'代码': code, '名称': name}]. *)
Record cache_entry (cell : Type) := {
  e_code : pystr;
  e_name : cell
}.

(** A cache file: its modification time and its content. *)
Record artifact (cell : Type) := {
  mtime : Z;
  payload : list (cache_entry cell)
}.

(** The provider's endpoints. *)
Inductive endpoint :=
| fx_spot_quote
| currency_boc_sina
| stock_zh_a_spot_em
| stock_individual_info_em (symbol : pystr)
| stock_hk_security_profile_em (symbol : pystr)
| stock_hk_daily (symbol : pystr)
| stock_hk_hist (symbol : pystr)
| stock_hk_spot_em
| stock_hk_main_board_spot_em
| stock_dividend_cninfo (symbol : pystr)
| stock_hk_dividend_payout_em (symbol : pystr).

(** The components of the pipeline. *)
Inductive component :=
| Resolver_A (query : pystr)
| Resolver_HK (query : pystr)
| Dividend_A (symbol : pystr)
| Dividend_HK (symbol : pystr)
| Rate_lookup.

Inductive event :=
| Invoked (c : component)
| Fetched (e : endpoint).

(** The surroundings of one request: the clock and what each endpoint
    answers ([Raise] when the call fails, [Ok None] when it returns
    [None]).  They do not change while the request runs. *)
Record world (cell : Type) := {
  now : Z;
  answer : endpoint -> res (option (frame cell))
}.

(** What a request can change: the two cache files, and the log of
    invocations kept for the proofs (most recent first). *)
Record state (cell : Type) := {
  cache_a : option (artifact cell);
  cache_hk : option (artifact cell);
  trace : list event
}.

(* ================================================================== *)
(** * The monad of the embedding *)

Definition M (cell A : Type) : Type := state cell -> res A * state cell.

Definition ret {cell A} (a : A) : M cell A := fun s => (Ok a, s).

Definition raise {cell A} (e : exn) : M cell A := fun s => (Raise e, s).

Definition bind {cell A B} (m : M cell A) (k : A -> M cell B) : M cell B :=
  fun s => match m s with
           | (Ok a, s') => k a s'
           | (Raise e, s') => (Raise e, s')
           end.

(** [try: m  except Exception as e: h e]. *)
Definition try_except {cell A} (m : M cell A) (h : exn -> M cell A) : M cell A :=
  fun s => match m s with
           | (Ok a, s') => (Ok a, s')
           | (Raise e, s') => h e s'
           end.

Definition log {cell} (ev : event) : M cell unit :=
  fun s => (Ok tt, {| cache_a := cache_a s; cache_hk := cache_hk s;
                      trace := ev :: trace s |}).

Definition lift {cell A} (r : res A) : M cell A := fun s => (r, s).

Declare Scope py_scope.
Delimit Scope py_scope with py.
Notation "x <- m ;; k" := (bind m (fun x => k))
  (at level 61, m at next level, right associativity) : py_scope.
Notation "m ;;; k" := (bind m (fun _ => k))
  (at level 61, right associativity) : py_scope.
Local Open Scope py_scope.

(** [ak.<endpoint>(...)]. *)
Definition ak {cell} (w : world cell) (e : endpoint) : M cell (option (frame cell)) :=
  log (Fetched e) ;;; lift (answer w e).

(** Using a frame the way that fails on [None] with [err]. *)
Definition deref {cell} (err : exn) (o : option (frame cell)) : M cell (frame cell) :=
  match o with
  | Some f => ret f
  | None => raise err
  end.

Definition of_option {cell A} (err : exn) (o : option A) : M cell A :=
  match o with
  | Some a => ret a
  | None => raise err
  end.

(** [df.iloc[i]] for [i >= 0], and [df.iloc[-1]]. *)
Definition iloc {cell} (f : frame cell) (i : nat) : M cell (list cell) :=
  of_option IndexError (nth_error (rows f) i).

Definition iloc_last {cell} (f : frame cell) : M cell (list cell) :=
  of_option IndexError (nth_error (rev (rows f)) 0).

(** [row[label]]. *)
Definition field {cell} (f : frame cell) (row : list cell) (l : pystr) : M cell cell :=
  match col_index (columns f) l with
  | Some i => of_option IndexError (nth_error row i)
  | None => raise (KeyError l)
  end.

(* ================================================================== *)
(** * The pipeline *)

Section Pipeline.

Context {cell : Type} `{Runtime cell}.
Variable w : world cell.

Local Abbreviation frame := (frame cell).
Local Abbreviation M := (M cell).

Definition CACHE_TTL : Z := (24 * 3600)%Z.

(** ** Exchange rate: [get_hkd_cny_rate] *)

Fixpoint join_sp (l : list pystr) : pystr :=
  match l with
  | [] => []
  | [x] => x
  | x :: l' => x ++ 0x20%N :: join_sp l'
  end.

(** The row text mentions the currency by code or by either name. *)
Definition mentions_hkd (row : list cell) : bool :=
  let row_str := join_sp (map py_str row) in
  contains row_str (u8 "HKD") || contains row_str (u8 "港元")
  || contains row_str (u8 "港币").

(** [0.5 <= r <= 1.5]. *)
Definition plausible (r : Q) : bool :=
  negb (Qltb r (1 # 2)%Q) && negb (Qltb (3 # 2)%Q r).

(** The inner loop over one row's values. *)
Fixpoint scan_values (vs : list cell) : option Q :=
  match vs with
  | [] => None
  | v :: vs' =>
      match py_float v with
      | Some (Fnum r) => if plausible r then Some (round6 r) else scan_values vs'
      | _ => scan_values vs'
      end
  end.

(** The outer loop over the rows of the spot table. *)
Fixpoint scan_rows (rs : list (list cell)) : option Q :=
  match rs with
  | [] => None
  | row :: rs' =>
      if mentions_hkd row then
        match scan_values row with
        | Some r => Some r
        | None => scan_rows rs'
        end
      else scan_rows rs'
  end.

Definition rate_from_spot : M (option Q) :=
  try_except
    (df <- ak w fx_spot_quote ;;
     match df with
     | Some f => if frame_empty f then ret None else ret (scan_rows (rows f))
     | None => ret None
     end)
    (fun _ => ret None).

Definition mid_or_benchmark (col : pystr) : bool :=
  contains col (u8 "中间价") || contains col (u8 "基准价").

(** The loop over the bank table's columns, each paired with the cell
    of the last row. *)
Fixpoint scan_cols (cs : list (pystr * cell)) : option Q :=
  match cs with
  | [] => None
  | (col, v) :: cs' =>
      if mid_or_benchmark col then
        match to_numeric v with
        | Some val => if Qltb (inject_Z 10) val
                      then Some (round6 (val / inject_Z 100)%Q)
                      else scan_cols cs'
        | None => scan_cols cs'
        end
      else scan_cols cs'
  end.

Definition rate_from_bank : M (option Q) :=
  try_except
    (df <- ak w currency_boc_sina ;;
     match df with
     | Some f =>
         if frame_empty f then ret None
         else last <- iloc_last f ;;
              ret (scan_cols (combine (columns f) last))
     | None => ret None
     end)
    (fun _ => ret None).

Definition DEFAULT_RATE : Q := 0.924%Q.

Definition get_hkd_cny_rate : M Q :=
  log (Invoked Rate_lookup) ;;;
  r1 <- rate_from_spot ;;
  match r1 with
  | Some r => ret r
  | None =>
      r2 <- rate_from_bank ;;
      match r2 with
      | Some r => ret r
      | None => ret DEFAULT_RATE
      end
  end.

(** ** Symbol caches *)

Definition set_cache_a (a : artifact cell) : M unit :=
  fun s => (Ok tt, {| cache_a := Some a; cache_hk := cache_hk s; trace := trace s |}).

Definition set_cache_hk (a : artifact cell) : M unit :=
  fun s => (Ok tt, {| cache_a := cache_a s; cache_hk := Some a; trace := trace s |}).

Definition get_cache_a : M (option (artifact cell)) := fun s => (Ok (cache_a s), s).
Definition get_cache_hk : M (option (artifact cell)) := fun s => (Ok (cache_hk s), s).

Definition L_code : pystr := u8 "代码".
Definition L_name : pystr := u8 "名称".

(** [df[['代码', '名称']]] with the codes passed through [astype(str)]. *)
Fixpoint project_rows (ic inm : nat) (rs : list (list cell))
  : res (list (cache_entry cell)) :=
  match rs with
  | [] => Ok []
  | r :: rs' =>
      match nth_error r ic, nth_error r inm, project_rows ic inm rs' with
      | Some c, Some n, Ok es => Ok ({| e_code := py_str c; e_name := n |} :: es)
      | Some _, Some _, Raise e => Raise e
      | _, _, _ => Raise IndexError
      end
  end.

Definition project (f : frame) : res (list (cache_entry cell)) :=
  match col_index (columns f) L_code, col_index (columns f) L_name with
  | Some ic, Some inm => project_rows ic inm (rows f)
  | None, _ => Raise (KeyError L_code)
  | _, None => Raise (KeyError L_name)
  end.

(** The artifact is used when it exists and is younger than the TTL. *)
Definition fresh (a : option (artifact cell)) : option (list (cache_entry cell)) :=
  match a with
  | Some art => if (now w - mtime art <? CACHE_TTL)%Z then Some (payload art) else None
  | None => None
  end.

Definition _load_a_cache : M (list (cache_entry cell)) :=
  a <- get_cache_a ;;
  match fresh a with
  | Some es => ret es
  | None =>
      df <- ak w stock_zh_a_spot_em ;;
      f <- deref TypeError df ;;
      subset <- lift (project f) ;;
      set_cache_a {| mtime := now w; payload := subset |} ;;;
      ret subset
  end.

Definition has_label (f : frame) (l : pystr) : bool :=
  match col_index (columns f) l with Some _ => true | None => false end.

(** The loop over the two snapshot endpoints of the HK market. *)
Fixpoint refetch_hk (fns : list endpoint) : M (list (cache_entry cell)) :=
  match fns with
  | [] => ret []
  | fn :: fns' =>
      r <- try_except
             (df <- ak w fn ;;
              match df with
              | Some f =>
                  if negb (frame_empty f) && has_label f L_code then
                    subset <- lift (project f) ;;
                    set_cache_hk {| mtime := now w; payload := subset |} ;;;
                    ret (Some subset)
                  else ret None
              | None => ret None
              end)
             (fun _ => ret None) ;;
      match r with
      | Some subset => ret subset
      | None => refetch_hk fns'
      end
  end.

Definition _load_hk_cache : M (list (cache_entry cell)) :=
  a <- get_cache_hk ;;
  match fresh a with
  | Some es => ret es
  | None => refetch_hk [stock_hk_spot_em; stock_hk_main_board_spot_em]
  end.

(** ** Resolvers *)

(** A canonical security: [{'symbol', 'name', 'current_price'}]. *)
Record security := {
  symbol : pystr;
  name : pystr;
  current_price : option pyfloat
}.

Definition L_value : pystr := u8 "value".
Definition L_close : pystr := u8 "close".

Definition _get_a_stock_by_code (code : pystr) : M security :=
  df <- ak w (stock_individual_info_em code) ;;
  info <- deref AttributeError df ;;
  r0 <- iloc info 0 ;;
  v0 <- field info r0 L_value ;;
  r2 <- iloc info 2 ;;
  v2 <- field info r2 L_value ;;
  ret {| symbol := code;
         name := py_str v2;
         current_price := option_map Fnum (to_numeric v0) |}.

(** [name.str.contains(query, na=False, regex=False)] on one record: a
    name that is not a string never matches.  (The column is taken to
    hold strings, as the snapshots do, so that [.str] applies.) *)
Definition name_contains (query : pystr) (e : cache_entry cell) : bool :=
  match as_text (e_name e) with
  | Some n => contains n query
  | None => false
  end.

(** The row selection of the A-share name search. *)
Definition a_selects (query : pystr) (e : cache_entry cell) : bool :=
  PyStr.eqb (e_code e) query || name_contains query e.

Definition search_a_stock (query : pystr) : M (option security) :=
  log (Invoked (Resolver_A query)) ;;;
  direct <- (if isdigit query then
               try_except (i <- _get_a_stock_by_code query ;; ret (Some i))
                          (fun _ => ret None)
             else ret None) ;;
  match direct with
  | Some i => ret (Some i)
  | None =>
      try_except
        (stock_list <- _load_a_cache ;;
         match filter (a_selects query) stock_list with
         | e :: _ =>
             let code := e_code e in
             let nm := py_str (e_name e) in
             try_except
               (info <- _get_a_stock_by_code code ;;
                ret (Some {| symbol := symbol info; name := nm;
                             current_price := current_price info |}))
               (fun _ => ret (Some {| symbol := code; name := nm;
                                      current_price := None |}))
         | [] => ret None
         end)
        (fun _ => ret None)
  end.

(** The name of an HK security: the profile's second column, else the code. *)
Definition hk_name (code : pystr) : M pystr :=
  try_except
    (df <- ak w (stock_hk_security_profile_em code) ;;
     prof <- deref AttributeError df ;;
     if frame_empty prof then ret code
     else r0 <- iloc prof 0 ;;
          v <- of_option IndexError (nth_error r0 1) ;;
          ret (py_str v))
    (fun _ => ret code).

Definition to_float (v : cell) : M pyfloat :=
  match py_float v with
  | Some x => ret x
  | None => raise (ValueError (py_str v))
  end.

(** The latest close: the daily history, else the ten-day range. *)
Definition hk_price (code : pystr) : M (option pyfloat) :=
  try_except
    (df <- ak w (stock_hk_daily code) ;;
     hist <- deref AttributeError df ;;
     if frame_empty hist then ret None
     else r <- iloc_last hist ;;
          v <- field hist r L_close ;;
          x <- to_float v ;;
          ret (Some x))
    (fun _ =>
       try_except
         (df <- ak w (stock_hk_hist code) ;;
          hist <- deref AttributeError df ;;
          if frame_empty hist then ret None
          else r <- iloc_last hist ;;
               v <- of_option IndexError (nth_error r 2) ;;
               x <- to_float v ;;
               ret (Some x))
         (fun _ => ret None)).

Definition _get_hk_stock_by_code (code0 : pystr) : M security :=
  let code := zfill5 code0 in
  nm <- hk_name code ;;
  price <- hk_price code ;;
  ret {| symbol := code; name := nm; current_price := price |}.

Definition search_hk_stock (query : pystr) : M (option security) :=
  log (Invoked (Resolver_HK query)) ;;;
  direct <- (if isdigit query then
               try_except (i <- _get_hk_stock_by_code query ;; ret (Some i))
                          (fun _ => ret None)
             else ret None) ;;
  match direct with
  | Some i => ret (Some i)
  | None =>
      try_except
        (stock_list <- _load_hk_cache ;;
         match stock_list with
         | [] => ret None
         | _ =>
             match filter (name_contains query) stock_list with
             | e :: _ =>
                 let code := e_code e in
                 try_except
                   (i <- _get_hk_stock_by_code code ;; ret (Some i))
                   (fun _ => ret (Some {| symbol := code;
                                          name := py_str (e_name e);
                                          current_price := None |}))
             | [] => ret None
             end
         end)
        (fun _ => ret None)
  end.

(** ** Dates *)

Definition DAY : Z := 86400%Z.

(** Year, month and day of the proleptic Gregorian calendar for a day
    count from 1970-01-01. *)
Definition civil_from_days (days : Z) : Z * Z * Z :=
  (let z := days + 719468 in
  let era := z / 146097 in
  let doe := z - era * 146097 in
  let yoe := (doe - doe / 1460 + doe / 36524 - doe / 146096) / 365 in
  let doy := doe - (365 * yoe + yoe / 4 - yoe / 100) in
  let mp := (5 * doy + 2) / 153 in
  let d := doy - (153 * mp + 2) / 5 + 1 in
  let m := if mp <? 10 then mp + 3 else mp - 9 in
  let y := yoe + era * 400 + (if m <=? 2 then 1 else 0) in
  (y, m, d))%Z.

Definition digit_char (n : Z) : char := (0x30 + Z.to_N (n mod 10)%Z)%N.

Definition two_digits (n : Z) : pystr := [digit_char (n / 10)%Z; digit_char n].

(** [pd.Timestamp(t).strftime('%Y-%m-%d')], for the four-digit years a
    [Timestamp] can hold. *)
Definition strftime_ymd (t : Z) : pystr :=
  let '(y, m, d) := civil_from_days (t / DAY)%Z in
  two_digits (y / 100)%Z ++ two_digits y ++ 0x2d%N :: two_digits m
  ++ 0x2d%N :: two_digits d.

(** [datetime.now() - timedelta(days=365)]. *)
Definition one_year_ago : Z := (now w - 365 * DAY)%Z.

(** [.tail(2)]. *)
Definition tail2 {A} (l : list A) : list A := skipn (List.length l - 2) l.

(** [.dropna()] over a column of parsed dates. *)
Fixpoint dropna {A} (l : list (option A)) : list A :=
  match l with
  | [] => []
  | Some a :: l' => a :: dropna l'
  | None :: l' => dropna l'
  end.

(** [ts >= one_year_ago] for a parsed date; false on NaT. *)
Definition in_window (d : option Z) : bool :=
  match d with
  | Some t => (one_year_ago <=? t)%Z
  | None => false
  end.

Definition cell_at (row : list cell) (i : nat) : option cell := nth_error row i.

Definition date_at (i : nat) (row : list cell) : option Z :=
  match cell_at row i with
  | Some c => to_datetime c
  | None => None
  end.

Definition Qpos (x : Q) : bool := Qltb 0%Q x.

(** The outcome of a dividend lookup: [(amount, dates, error)]. *)
Definition outcome : Type := option Q * list pystr * option pystr.

(** ** A-share dividends: [get_a_dividend] *)

(** Column 4 after [pd.to_numeric(..., errors='coerce').fillna(0)]. *)
Definition per10 (row : list cell) : Q :=
  match cell_at row 4 with
  | Some c => match to_numeric c with Some q => q | None => 0%Q end
  | None => 0%Q
  end.

(** The payment-date column is used when there are more than 7 columns
    and its label is truthy. *)
Definition pay_date_col (cols : list pystr) : bool :=
  match nth_error cols 7 with
  | Some (_ :: _) => true
  | _ => false
  end.

Definition a_dates (f : frame) : list pystr :=
  if pay_date_col (columns f) then
    let cash_rows := filter (fun r => Qpos (per10 r)) (rows f) in
    map strftime_ymd (rev (tail2 (dropna (map (date_at 7) cash_rows))))
  else [].

Definition a_aggregate (f : frame) : outcome :=
  let dates := a_dates f in
  let df_recent := filter (fun r => in_window (date_at 0 r)) (rows f) in
  let total_recent := Qsum (map per10 df_recent) in
  if match df_recent with [] => false | _ => Qpos total_recent end then
    (Some (round6 (total_recent / inject_Z 10)%Q), dates, None)
  else
    let total_head := Qsum (map per10 (firstn 2 (rows f))) in
    if Qpos total_head then
      (Some (round6 (total_head / inject_Z 10)%Q), dates, None)
    else (None, dates, Some (u8 "近期现金分红金额为 0")).

Definition get_a_dividend (sym : pystr) : M outcome :=
  log (Invoked (Dividend_A sym)) ;;;
  try_except
    (df <- ak w (stock_dividend_cninfo sym) ;;
     match df with
     | None => ret (None, [], Some (u8 "无分红记录"))
     | Some f =>
         if frame_empty f then ret (None, [], Some (u8 "无分红记录"))
         else if (List.length (columns f) <? 5)%nat then
           ret (None, [], Some (u8 "数据列数异常: " ++ repr_labels (columns f)))
         else ret (a_aggregate f)
     end)
    (fun e => ret (None, [], Some (str_exn e))).

(** ** HK dividends: [get_hk_dividend] *)

(** [df[method_col].apply(_parse_hkd)]: stops at the first row that raises. *)
Fixpoint parse_rows (rs : list (list cell)) : M (list (list cell * Q)) :=
  match rs with
  | [] => ret []
  | r :: rs' =>
      c <- of_option IndexError (cell_at r 2) ;;
      x <- lift (_parse_hkd (py_str c)) ;;
      xs <- parse_rows rs' ;;
      ret ((r, x) :: xs)
  end.

Definition hk_aggregate (rs : list (list cell * Q)) : outcome :=
  let cash := filter (fun rx => Qpos (snd rx)) rs in
  let dates := map strftime_ymd
                   (firstn 2 (dropna (map (fun rx => date_at 4 (fst rx)) cash))) in
  let df_recent := filter (fun rx => in_window (date_at 0 (fst rx))) rs in
  let total_recent := Qsum (map snd df_recent) in
  if match df_recent with [] => false | _ => Qpos total_recent end then
    (Some (round6 total_recent), dates, None)
  else
    let total_head := Qsum (map snd (firstn 2 rs)) in
    if Qpos total_head then (Some (round6 total_head), dates, None)
    else (None, dates, Some (u8 "分红金额解析为 0")).

Definition get_hk_dividend (sym : pystr) : M outcome :=
  log (Invoked (Dividend_HK sym)) ;;;
  try_except
    (let code := zfill5 sym in
     df <- ak w (stock_hk_dividend_payout_em code) ;;
     match df with
     | None => ret (None, [], Some (u8 "无港股分红记录"))
     | Some f =>
         if frame_empty f then ret (None, [], Some (u8 "无港股分红记录"))
         else
           _ <- of_option IndexError (nth_error (columns f) 0) ;;
           _ <- of_option IndexError (nth_error (columns f) 2) ;;
           _ <- of_option IndexError (nth_error (columns f) 4) ;;
           rs <- parse_rows (rows f) ;;
           ret (hk_aggregate rs)
     end)
    (fun e => ret (None, [], Some (u8 "港股分红获取失败: " ++ str_exn e))).

(** ** The orchestrator: [search_stock] *)

(** The JSON body of a search request, after [request.json or {}]: each
    key is absent or holds a string. *)
Record request := {
  rq_query : option pystr;
  rq_market : option pystr
}.

Record QueryResult := {
  r_symbol : pystr;
  r_name : pystr;
  r_market : pystr;
  r_current_price : option pyfloat;
  r_dividend : option Q;
  r_dividend_dates : list pystr;
  r_dividend_currency : pystr;
  r_hkd_rate : option Q;
  r_errors : list pystr
}.

Inductive response :=
| Result (r : QueryResult)                                   (* HTTP 200 *)
| ErrorObject (status : Z) (error : pystr) (errors : option (list pystr)).

Definition get_default (o : option pystr) (d : pystr) : pystr :=
  match o with Some s => s | None => d end.

(** [result.update(info)]. *)
Definition update (r : QueryResult) (i : security) : QueryResult :=
  {| r_symbol := symbol i; r_name := name i; r_market := r_market r;
     r_current_price := current_price i; r_dividend := r_dividend r;
     r_dividend_dates := r_dividend_dates r;
     r_dividend_currency := r_dividend_currency r;
     r_hkd_rate := r_hkd_rate r; r_errors := r_errors r |}.

Definition add_error (r : QueryResult) (e : pystr) : QueryResult :=
  {| r_symbol := r_symbol r; r_name := r_name r; r_market := r_market r;
     r_current_price := r_current_price r; r_dividend := r_dividend r;
     r_dividend_dates := r_dividend_dates r;
     r_dividend_currency := r_dividend_currency r;
     r_hkd_rate := r_hkd_rate r; r_errors := r_errors r ++ [e] |}.

Definition set_rate (r : QueryResult) (x : Q) : QueryResult :=
  {| r_symbol := r_symbol r; r_name := r_name r; r_market := r_market r;
     r_current_price := r_current_price r; r_dividend := r_dividend r;
     r_dividend_dates := r_dividend_dates r;
     r_dividend_currency := r_dividend_currency r;
     r_hkd_rate := Some x; r_errors := r_errors r |}.

(** An f-string renders an absent error as [None]. *)
Definition fmt (o : option pystr) : pystr := get_default o (u8 "None").

(** The merge of a dividend outcome into the result. *)
Definition merge_dividend (prefix : pystr) (r : QueryResult) (o : outcome)
  : QueryResult :=
  let '(div, dates, err) := o in
  let r' :=
    {| r_symbol := r_symbol r; r_name := r_name r; r_market := r_market r;
       r_current_price := r_current_price r;
       r_dividend := match div with Some d => Some d | None => r_dividend r end;
       r_dividend_dates := dates;
       r_dividend_currency := r_dividend_currency r;
       r_hkd_rate := r_hkd_rate r; r_errors := r_errors r |} in
  match div with
  | Some _ => r'
  | None => add_error r' (prefix ++ fmt err)
  end.

Definition MARKET_A : pystr := u8 "A".

Definition shell (query market : pystr) : QueryResult :=
  {| r_symbol := query; r_name := []; r_market := market;
     r_current_price := None; r_dividend := None; r_dividend_dates := [];
     r_dividend_currency :=
       if PyStr.eqb market MARKET_A then u8 "CNY" else u8 "HKD";
     r_hkd_rate := None; r_errors := [] |}.

(** One call inside the [try] block: when it raises, the handler of
    the block appends the exception's text to the result as it stands. *)
Definition attempt {A} (r : QueryResult) (m : M A) (k : A -> M response)
  : M response :=
  x <- try_except (a <- m ;; ret (inl a)) (fun e => ret (inr e)) ;;
  match x with
  | inl a => k a
  | inr e => ret (Result (add_error r (str_exn e)))
  end.

Definition search_a_path (query : pystr) (result : QueryResult) : M response :=
  attempt result (search_a_stock query) (fun info =>
    let result1 :=
      match info with
      | Some i => update result i
      | None => add_error result
                  (u8 "未找到 A 股: " ++ query ++ u8 "，将以代码方式尝试获取分红")
      end in
    attempt result1 (get_a_dividend (r_symbol result1)) (fun o =>
      ret (Result (merge_dividend (u8 "分红获取失败: ") result1 o)))).

Definition search_hk_path (query : pystr) (result : QueryResult) : M response :=
  attempt result (search_hk_stock query) (fun info =>
    match info with
    | None =>
        ret (ErrorObject 200%Z
               (u8 "未找到港股「" ++ query ++ u8 "」，请输入股票代码（如 03968）")
               (Some []))
    | Some i =>
        let result1 := update result i in
        attempt result1 (get_hk_dividend (r_symbol result1)) (fun o =>
          let result2 := merge_dividend (u8 "港股分红获取失败: ") result1 o in
          attempt result2 get_hkd_cny_rate (fun rate =>
            ret (Result (set_rate result2 rate))))
    end).

Definition search_stock (req : request) : M response :=
  let query := strip (get_default (rq_query req) []) in
  let market := get_default (rq_market req) MARKET_A in
  match query with
  | [] => ret (ErrorObject 400%Z (u8 "请输入股票名称或代码") None)
  | _ =>
      let result := shell query market in
      if PyStr.eqb market MARKET_A then search_a_path query result
      else search_hk_path query result
  end.

End Pipeline.

Arguments security : clear implicits.
Arguments QueryResult : clear implicits.
Arguments response : clear implicits.
Arguments request : clear implicits.

(* ================================================================== *)
(** * The written specification, in its own words *)

(** Definitions that follow the sentences of the specification rather
    than the code; the theorems below compare the two. *)
Module Spec.

Section Words.

Context {cell : Type} `{Runtime cell}.




(** The rows announced at [cutoff] or later, with no upper end. *)
Definition announced_since (cutoff : Z) (r : list cell) : bool :=
  match date_at 0 r with
  | Some t => (cutoff <=? t)%Z
  | None => false
  end.



(** "Summing the first 2 rows of the raw history", per share. *)
Definition head_amount (rs : list (list cell)) : Q :=
  Qsum (map (fun r => (per10 r / inject_Z 10)%Q) (firstn 2 rs)).

Fixpoint insert_asc (x : Z) (l : list Z) : list Z :=
  match l with
  | [] => [x]
  | y :: l' => if (x <=? y)%Z then x :: l else y :: insert_asc x l'
  end.

(** Chronological order. *)
Fixpoint sort_asc (l : list Z) : list Z :=
  match l with
  | [] => []
  | x :: l' => insert_asc x (sort_asc l')
  end.




Fixpoint ascending (l : list Z) : Prop :=
  match l with
  | x :: (y :: _) as l' => (x <= y)%Z /\ ascending l'
  | _ => True
  end.


(** The float readings of a row's values that do not raise or give NaN. *)
Definition floats (row : list cell) : list Q :=
  flat_map (fun v => match py_float v with
                     | Some (Fnum r) => [r]
                     | _ => []
                     end) row.


(** The same over the rows that mention the currency. *)
Definition first_plausible_hkd (rs : list (list cell)) : option Q :=
  option_map round6 (find plausible (flat_map floats (filter mentions_hkd rs))).

(** The numeric latest values of the mid-rate and benchmark columns. *)
Definition bank_values (cs : list (pystr * cell)) : list Q :=
  flat_map (fun cv => match to_numeric (snd cv) with
                      | Some v => [v]
                      | None => []
                      end)
           (filter (fun cv => mid_or_benchmark (fst cv)) cs).

(** The first of them above 10, per unit. *)
Definition first_per100 (cs : list (pystr * cell)) : option Q :=
  option_map (fun v => round6 (v / inject_Z 100)%Q)
             (find (fun v => Qltb (inject_Z 10) v) (bank_values cs)).

(** What the spot endpoint contributes: nothing when the call fails or
    the table is missing or empty. *)
Definition spot_rate (w : world cell) : option Q :=
  match answer w fx_spot_quote with
  | Ok (Some f) => if frame_empty f then None else first_plausible_hkd (rows f)
  | _ => None
  end.

Definition bank_rate (w : world cell) : option Q :=
  match answer w currency_boc_sina with
  | Ok (Some f) =>
      match rev (rows f) with
      | last :: _ => if frame_empty f then None
                     else first_per100 (combine (columns f) last)
      | [] => None
      end
  | _ => None
  end.

Definition rate (w : world cell) : Q :=
  match spot_rate w with
  | Some r => r
  | None => match bank_rate w with
            | Some r => r
            | None => 0.924%Q
            end
  end.

(** "The code equals the query exactly OR the name contains the query
    as a case-sensitive substring." *)
Definition code_or_name (query : pystr) (e : cache_entry cell) : bool :=
  PyStr.eqb (e_code e) query ||
  match as_text (e_name e) with
  | Some n => contains n query
  | None => false
  end.

(** A snapshot answer from which a symbol list can be made. *)
Definition usable (a : res (option (frame cell))) : option (list (cache_entry cell)) :=
  match a with
  | Ok (Some f) =>
      if negb (frame_empty f) && has_label f L_code then
        match project f with Ok es => Some es | Raise _ => None end
      else None
  | _ => None
  end.

(** "Valid iff now - fetchedAt < 24h." *)
Definition valid (now_ : Z) (a : option (artifact cell)) : Prop :=
  exists art, a = Some art /\ (now_ - mtime art < 24 * 3600)%Z.

End Words.

(** The endpoint calls in a log. *)
Definition is_fetch (ev : event) : bool :=
  match ev with Fetched _ => true | Invoked _ => false end.

Definition fetches (t : list event) : list event := filter is_fetch t.



(** [s] with the events [evs] logged on top, the latest first. *)
Definition logged {cell} (evs : list event) (s : state cell) : state cell :=
  {| cache_a := cache_a s; cache_hk := cache_hk s; trace := evs ++ trace s |}.



(** [m] never raises. *)
Definition total {cell A} (m : M cell A) : Prop :=
  forall s, exists a, fst (m s) = Ok a.

End Spec.

(* ================================================================== *)
(** * Sample data *)

(** A concrete cell is given by what the interpreter and pandas make
    of it. *)
Module Sample.

Record scell := {
  s_str : pystr;
  s_float : option pyfloat;
  s_text : option pystr;
  s_numeric : option Q;
  s_datetime : option Z
}.

(** A [str] that reads neither as a number nor as a date. *)
Definition txt (s : string) : scell :=
  {| s_str := u8 s; s_float := None; s_text := Some (u8 s);
     s_numeric := None; s_datetime := None |}.

(** A finite [float], with its printed form.  As a date pandas reads it
    as nanoseconds after the epoch. *)
Definition num (printed : string) (q : Q) : scell :=
  {| s_str := u8 printed; s_float := Some (Fnum q); s_text := None;
     s_numeric := Some q; s_datetime := Some 0%Z |}.

(** A [datetime.date], by its day count from 1970-01-01. *)
Definition day (d : Z) : scell :=
  {| s_str := strftime_ymd (d * DAY); s_float := None; s_text := None;
     s_numeric := None; s_datetime := Some (d * DAY)%Z |}.

(** A missing value, [NaN]. *)
Definition nan : scell :=
  {| s_str := u8 "nan"; s_float := Some Fnan; s_text := None;
     s_numeric := None; s_datetime := None |}.

Definition quoted (s : pystr) : pystr := u8 "'" ++ s ++ u8 "'".

Fixpoint join_comma (l : list pystr) : pystr :=
  match l with
  | [] => []
  | [x] => x
  | x :: l' => x ++ u8 ", " ++ join_comma l'
  end.

(** Interpreter texts, right for strings without quotes or escapes. *)
Definition message (e : exn) : pystr :=
  match e with
  | UpstreamError m => m
  | ValueError a => u8 "could not convert string to float: " ++ quoted a
  | IndexError => u8 "list index out of range"
  | KeyError k => quoted k
  | TypeError => u8 "'NoneType' object is not subscriptable"
  | AttributeError => u8 "'NoneType' object has no attribute 'empty'"
  end.

#[export] Instance runtime : Runtime scell := {|
  py_str := s_str;
  py_float := s_float;
  as_text := s_text;
  to_numeric := s_numeric;
  to_datetime := s_datetime;
  interp_message := message;
  repr_labels := fun l => u8 "[" ++ join_comma (map quoted l) ++ u8 "]"
|}.

(** 2024-07-01 12:00:00. *)
Definition noon : Z := (19905 * DAY + 43200)%Z.

Definition unreachable : res (option (frame scell)) :=
  Raise (UpstreamError (u8 "connection refused")).

Definition offline : world scell := {| now := noon; answer := fun _ => unreachable |}.

Definition blank : state scell :=
  {| cache_a := None; cache_hk := None; trace := [] |}.

(** The eleven columns of a corporate-actions history. *)
Definition labels11 : list pystr :=
  map u8 [ "实施方案公告日期"; "分红类型"; "送股比例"; "转增比例"; "派息比例";
           "股权登记日"; "除权日"; "派息日"; "股份到账日"; "实施方案分红说明";
           "报告时间" ]%string.

(** One row: announced on day [a], [amount] per 10 shares, paid on [p]. *)
Definition action (a : Z) (amount : scell) (p : scell) : list scell :=
  [ day a; txt "年度分红"; nan; nan; amount; day a; day a; p; nan;
    txt "派现"; txt "年报" ].

Definition history (rs : list (list scell)) : world scell :=
  {| now := noon;
     answer := fun e => match e with
                        | stock_dividend_cninfo _ => Ok (Some {| columns := labels11; rows := rs |})
                        | _ => unreachable
                        end |}.

(** 200 days before [noon]: 5 per 10 shares; 400 days before: 3. *)
Definition two_rows : list (list scell) :=
  [ action 19705 (num "5.0" 5) (day 19735);
    action 19505 (num "3.0" 3) (day 19535) ].




(** A zero amount and a missing one. *)
Definition zero_rows : list (list scell) :=
  [ action 19705 (num "0.0" 0) (day 19735);
    action 19505 nan (day 19535) ].







Definition tencent : list scell := [txt "00700"; txt "腾讯控股"].

(** The primary HK snapshot fails, the alternate answers. *)
Definition hk_primary_down : world scell :=
  {| now := noon;
     answer := fun e =>
       match e with
       | stock_hk_main_board_spot_em =>
           Ok (Some {| columns := [L_code; L_name]; rows := [tencent] |})
       | _ => unreachable
       end |}.

Definition hours (n : Z) : Z := (n * 3600)%Z.

(** Both cache files written [n] hours before [noon]. *)
Definition cached (n : Z) (es : list (cache_entry scell)) : state scell :=
  {| cache_a := Some {| mtime := noon - hours n; payload := es |};
     cache_hk := Some {| mtime := noon - hours n; payload := es |};
     trace := [] |}.

Definition tencent_entry : cache_entry scell :=
  {| e_code := u8 "00700"; e_name := txt "腾讯控股" |}.


(** A provider that knows 600519 and 00700. *)
Definition info_600519 : frame scell :=
  {| columns := map u8 ["item"; "value"]%string;
     rows := [ [txt "最新"; num "1700.0" 1700];
               [txt "股票代码"; txt "600519"];
               [txt "股票简称"; txt "贵州茅台"] ] |}.

Definition profile_00700 : frame scell :=
  {| columns := map u8 ["证券代码"; "证券简称"; "上市日期"]%string;
     rows := [ [txt "00700.HK"; txt "腾讯控股"; day 12583] ] |}.

Definition daily_00700 : frame scell :=
  {| columns := map u8 ["date"; "open"; "high"; "low"; "close"; "volume"]%string;
     rows := [ [day 19901; num "375.0" 375; num "379.0" 379; num "372.4" (1862 # 5);
                num "376.2" (1881 # 5); num "1.2e7" 12000000];
               [day 19902; num "376.0" 376; num "382.0" 382; num "375.0" 375;
                num "380.0" 380; num "1.5e7" 15000000] ] |}.

Definition payout_00700 : frame scell :=
  {| columns := map u8 ["最新公告日期"; "财政年度"; "分红方案"; "分配类型"; "除净日";
                        "截至过户日"; "发放日"]%string;
     rows := [ [day 19800; txt "2023"; txt "每股派港币3.4元"; txt "年度分配";
                day 19860; day 19862; day 19873];
               [day 19430; txt "2022"; txt "每股派港币2.4元"; txt "年度分配";
                day 19495; day 19497; day 19513] ] |}.

Definition spot_with_hkd : frame scell :=
  {| columns := map u8 ["货币对"; "买报价"; "卖报价"]%string;
     rows := [ [txt "USD/CNY"; num "7.2672" (4542 # 625); num "7.2676" (18169 # 2500)];
               [txt "HKD/CNY"; num "0.9305" (1861 # 2000); num "0.9307" (9307 # 10000)] ] |}.

Definition market : world scell :=
  {| now := noon;
     answer := fun e =>
       match e with
       | fx_spot_quote => Ok (Some spot_with_hkd)
       | stock_individual_info_em c =>
           if PyStr.eqb c (u8 "600519") then Ok (Some info_600519) else unreachable
       | stock_dividend_cninfo c =>
           if PyStr.eqb c (u8 "600519")
           then Ok (Some {| columns := labels11; rows := two_rows |})
           else unreachable
       | stock_hk_security_profile_em c =>
           if PyStr.eqb c (u8 "00700") then Ok (Some profile_00700) else unreachable
       | stock_hk_daily c =>
           if PyStr.eqb c (u8 "00700") then Ok (Some daily_00700) else unreachable
       | stock_hk_dividend_payout_em c =>
           if PyStr.eqb c (u8 "00700") then Ok (Some payout_00700) else unreachable
       | _ => unreachable
       end |}.

Definition ask (q : string) (market : option string) : request :=
  {| rq_query := Some (u8 q); rq_market := option_map u8 market |}.

End Sample.

(* ================================================================== *)
(** * The rest of [app.py] *)

(** ** Column lookup: [_find_col] *)

(** The first label that contains every keyword, else the first that
    contains some keyword. *)
Definition _find_col {cell} (df : frame cell) (keywords : list pystr) : option pystr :=
  match find (fun col => forallb (fun kw => contains col kw) keywords) (columns df) with
  | Some col => Some col
  | None => find (fun col => existsb (fun kw => contains col kw) keywords) (columns df)
  end.

(** ** The watchlist document and its four routes *)

Module Watchlist.

(** What [json.load] returns. *)
Unset Elimination Schemes.
Inductive json :=
| JNull
| JBool (b : bool)
| JNum (q : Q)
| JStr (s : pystr)
| JArr (l : list json)
| JObj (kv : list (pystr * json)).
Set Elimination Schemes.

(** A [dict] with string keys, in insertion order, each key once. *)
Definition dict := list (pystr * json).

Fixpoint dict_get (k : pystr) (d : dict) : option json :=
  match d with
  | [] => None
  | (k', v) :: d' => if PyStr.eqb k' k then Some v else dict_get k d'
  end.

(** [d[k] = v]: in place when the key is there, at the end otherwise. *)
Fixpoint dict_set (k : pystr) (v : json) (d : dict) : dict :=
  match d with
  | [] => [(k, v)]
  | (k', v') :: d' =>
      if PyStr.eqb k' k then (k', v) :: d' else (k', v') :: dict_set k v d'
  end.

(** [d.update(u)]. *)
Definition dict_update (d u : dict) : dict :=
  fold_left (fun acc kv => dict_set (fst kv) (snd kv) acc) u d.

(** [x[k]] for a string key [k]. *)
Definition subscript (x : json) (k : pystr) : res json :=
  match x with
  | JObj d => match dict_get k d with
              | Some v => Ok v
              | None => Raise (KeyError k)
              end
  | _ => Raise TypeError
  end.

(** What [for s in x] visits. *)
Definition iterate (x : json) : res (list json) :=
  match x with
  | JArr l => Ok l
  | JObj d => Ok (map (fun kv => JStr (fst kv)) d)
  | JStr s => Ok (map (fun c => JStr [c]) s)
  | _ => Raise TypeError
  end.

(** [v == stock_id] for the string [stock_id] of the URL. *)
Definition is_str (v : json) (s : pystr) : bool :=
  match v with
  | JStr t => PyStr.eqb t s
  | _ => false
  end.

Fixpoint uint_chars (u : Decimal.uint) : pystr :=
  match u with
  | Decimal.Nil => []
  | Decimal.D0 u' => 0x30%N :: uint_chars u'
  | Decimal.D1 u' => 0x31%N :: uint_chars u'
  | Decimal.D2 u' => 0x32%N :: uint_chars u'
  | Decimal.D3 u' => 0x33%N :: uint_chars u'
  | Decimal.D4 u' => 0x34%N :: uint_chars u'
  | Decimal.D5 u' => 0x35%N :: uint_chars u'
  | Decimal.D6 u' => 0x36%N :: uint_chars u'
  | Decimal.D7 u' => 0x37%N :: uint_chars u'
  | Decimal.D8 u' => 0x38%N :: uint_chars u'
  | Decimal.D9 u' => 0x39%N :: uint_chars u'
  end.

(** [str(n)] for an [int]. *)
Definition str_of_int (n : Z) : pystr :=
  match Z.to_int n with
  | Decimal.Pos u => uint_chars u
  | Decimal.Neg u => 0x2d%N :: uint_chars u
  end.

Definition K_stocks : pystr := u8 "stocks".
Definition K_id : pystr := u8 "id".
Definition K_created_at : pystr := u8 "created_at".
Definition K_updated_at : pystr := u8 "updated_at".

(** [data.json]: absent, or the JSON value it holds. *)
Definition disk := option json.

Definition load_data (f : disk) : json :=
  match f with
  | Some data => data
  | None => JObj [(K_stocks, JArr [])]
  end.

Definition save_data (data : json) : disk := Some data.

(** [GET /api/stocks]. *)
Definition get_stocks (f : disk) : res json := subscript (load_data f) K_stocks.

Section Routes.

(** [datetime.isoformat] of a clock reading, which the embedding takes
    in microseconds since the epoch. *)
Variable isoformat : Z -> pystr.

(** [str(int(t.timestamp() * 1000))]. *)
Definition new_id (t : Z) : pystr := str_of_int (Z.quot t 1000).

(** The posted object with its two server-side keys. *)
Definition stamped (t_id t_created : Z) (body : dict) : dict :=
  dict_set K_created_at (JStr (isoformat t_created))
           (dict_set K_id (JStr (new_id t_id)) body).

(** [data['stocks'] = v] on a document known to be an object. *)
Definition with_stocks (data : json) (v : json) : json :=
  match data with
  | JObj d => JObj (dict_set K_stocks v d)
  | _ => data
  end.

(** [POST /api/stocks] with a JSON object as body (an absent or empty
    body reads as the empty object); [t_id] and [t_created] are the two
    readings of the clock. *)
Definition add_stock (t_id t_created : Z) (body : dict) (f : disk)
  : res json * disk :=
  let data := load_data f in
  let stock := stamped t_id t_created body in
  match subscript data K_stocks with
  | Ok (JArr l) =>
      (Ok (JObj stock), save_data (with_stocks data (JArr (l ++ [JObj stock]))))
  | Ok _ => (Raise AttributeError, f)
  | Raise e => (Raise e, f)
  end.

(** The loop of [update_stock]: the first entry whose id is [stock_id]
    takes the updates and a fresh [updated_at]; the loop stops there. *)
Fixpoint update_first (t : Z) (stock_id : pystr) (updates : dict) (l : list json)
  : res (list json) :=
  match l with
  | [] => Ok []
  | s :: l' =>
      match subscript s K_id with
      | Raise e => Raise e
      | Ok v =>
          if is_str v stock_id then
            match s with
            | JObj d =>
                Ok (JObj (dict_set K_updated_at (JStr (isoformat t))
                                   (dict_update d updates)) :: l')
            | _ => Raise TypeError
            end
          else
            match update_first t stock_id updates l' with
            | Ok r => Ok (s :: r)
            | Raise e => Raise e
            end
      end
  end.

(** The entries of the document after the loop.  Looping over a list
    updates it in place; over an object or a string it visits keys or
    characters, none of which can be subscripted with ['id']. *)
Definition updated_stocks (t : Z) (stock_id : pystr) (updates : dict) (v : json)
  : res json :=
  match v with
  | JArr l => match update_first t stock_id updates l with
              | Ok l' => Ok (JArr l')
              | Raise e => Raise e
              end
  | _ => match iterate v with
         | Ok [] => Ok v
         | Ok (_ :: _) => Raise TypeError
         | Raise e => Raise e
         end
  end.

(** [PUT /api/stocks/<stock_id>]; the answer is [{'success': True}]. *)
Definition update_stock (t : Z) (stock_id : pystr) (updates : dict) (f : disk)
  : res unit * disk :=
  let data := load_data f in
  match subscript data K_stocks with
  | Raise e => (Raise e, f)
  | Ok v =>
      match updated_stocks t stock_id updates v with
      | Ok v' => (Ok tt, save_data (with_stocks data v'))
      | Raise e => (Raise e, f)
      end
  end.

(** [[s for s in l if s['id'] != stock_id]]. *)
Fixpoint keep_others (stock_id : pystr) (l : list json) : res (list json) :=
  match l with
  | [] => Ok []
  | s :: l' =>
      match subscript s K_id with
      | Raise e => Raise e
      | Ok v =>
          match keep_others stock_id l' with
          | Ok r => Ok (if is_str v stock_id then r else s :: r)
          | Raise e => Raise e
          end
      end
  end.

(** [DELETE /api/stocks/<stock_id>]; the answer is [{'success': True}]. *)
Definition delete_stock (stock_id : pystr) (f : disk) : res unit * disk :=
  let data := load_data f in
  match subscript data K_stocks with
  | Raise e => (Raise e, f)
  | Ok v =>
      match iterate v with
      | Raise e => (Raise e, f)
      | Ok l =>
          match keep_others stock_id l with
          | Ok l' => (Ok tt, save_data (with_stocks data (JArr l')))
          | Raise e => (Raise e, f)
          end
      end
  end.

End Routes.

(** The id an entry carries, when it is an object with a string id. *)
Definition id_of (s : json) : option pystr :=
  match s with
  | JObj d => match dict_get K_id d with
              | Some (JStr i) => Some i
              | _ => None
              end
  | _ => None
  end.

(** [s['id'] == stock_id], false when [s] has no id to read. *)
Definition has_id (stock_id : pystr) (s : json) : bool :=
  match subscript s K_id with
  | Ok v => is_str v stock_id
  | Raise _ => false
  end.

(** An entry the loops of the routes can read: an object with an ['id'] key. *)
Definition readable (s : json) : Prop := exists v, subscript s K_id = Ok v.

(** A document as the routes write it. *)
Definition stocks_of (f : disk) : option (list json) :=
  match get_stocks f with
  | Ok (JArr l) => Some l
  | _ => None
  end.

End Watchlist.

(** ** What a computation leaves alone *)

Module Effects.

(** [m] never changes the part [part] of the state. *)
Definition preserves {cell A X} (part : state cell -> X) (m : M cell A) : Prop :=
  forall s, part (snd (m s)) = part s.

(** The events [m] logged when run from [s], the latest first. *)
Definition logged_by {cell A} (m : M cell A) (s : state cell) (l : list event) : Prop :=
  trace (snd (m s)) = l ++ trace s.

(** Whatever [m] returns satisfies [P]. *)
Definition ensures {cell A} (P : A -> Prop) (m : M cell A) : Prop :=
  forall s a, fst (m s) = Ok a -> P a.

(** The shape every dividend outcome has: an amount, not negative, and
    no error, or no amount and an error; at most two dates. *)
Definition well_shaped (o : outcome) : Prop :=
  match o with
  | (Some a, dates, err) => err = None /\ (0 <= a)%Q /\ (List.length dates <= 2)%nat
  | (None, dates, err) => err <> None /\ (List.length dates <= 2)%nat
  end.


End Effects.

(** ** Sample watchlists and caches *)

Module Cases.

Import Sample Watchlist.

Fixpoint digits_of (n : nat) (x : Z) : pystr :=
  match n with
  | O => []
  | S n' => digits_of n' (x / 10)%Z ++ [digit_char x]
  end.

(** [datetime.isoformat] of a clock reading in microseconds, read as
    UTC: the fraction is left out when it is zero. *)
Definition iso (t : Z) : pystr :=
  let secs := (t / 1000000)%Z in
  let us := (t mod 1000000)%Z in
  let sod := (secs mod DAY)%Z in
  strftime_ymd secs ++ u8 "T" ++ two_digits (sod / 3600)%Z ++ u8 ":"
  ++ two_digits (sod / 60 mod 60)%Z ++ u8 ":" ++ two_digits (sod mod 60)%Z
  ++ (if (us =? 0)%Z then [] else u8 "." ++ digits_of 6 us).

(** 2024-07-01 12:00:00.123456 and, in the same millisecond, .123999. *)
Definition t_post : Z := 1719835200123456%Z.
Definition t_next : Z := 1719835200123999%Z.

Definition entry (id code : string) : dict :=
  [(u8 "symbol", JStr (u8 code)); (K_id, JStr (u8 id))].

(** Three entries, the first and the last under the same id. *)
Definition entries : list json :=
  [ JObj (entry "1719800000000" "600519");
    JObj (entry "1719800000001" "00700");
    JObj (entry "1719800000000" "000001") ].

Definition shelf : disk := Some (JObj [(u8 "owner", JStr (u8 "me")); (K_stocks, JArr entries)]).

(** A body that tries to choose its own id. *)
Definition body : dict :=
  [(u8 "symbol", JStr (u8 "00005")); (K_id, JStr (u8 "mine"))].

Definition maotai_entry : cache_entry scell :=
  {| e_code := u8 "600519"; e_name := txt "贵州茅台" |}.

Definition maotai : security :=
  {| symbol := u8 "600519"; name := u8 "贵州茅台"; current_price := Some (Fnum 1700) |}.


Definition snapshot : frame scell :=
  {| columns := [L_code; L_name]; rows := [tencent] |}.

(** A payout history whose second text ends its number with a full stop. *)
Definition payout_with_full_stop : frame scell :=
  {| columns := columns payout_00700;
     rows := [ [day 19800; txt "2023"; txt "每股派港币3.4元"; txt "年度分配";
                day 19860; day 19862; day 19873];
               [day 19430; txt "2022"; txt "每股派息0.5元,相当于港币0.55."; txt "年度分配";
                day 19495; day 19497; day 19513] ] |}.

(** A provider whose two market snapshots answer. *)
Definition listed : world scell :=
  {| now := noon;
     answer := fun e =>
       match e with
       | stock_zh_a_spot_em =>
           Ok (Some {| columns := [u8 "序号"; L_code; L_name];
                       rows := [[num "1" 1; txt "600519"; txt "贵州茅台"]] |})
       | stock_hk_main_board_spot_em => Ok (Some snapshot)
       | _ => unreachable
       end |}.

(** A provider whose A snapshot has no name column. *)
Definition unnamed : world scell :=
  {| now := noon;
     answer := fun e =>
       match e with
       | stock_zh_a_spot_em =>
           Ok (Some {| columns := [u8 "序号"; L_code];
                       rows := [[num "1" 1; txt "600519"]] |})
       | _ => unreachable
       end |}.

Definition payouts (f : frame scell) : world scell :=
  {| now := noon;
     answer := fun e => match e with
                        | stock_hk_dividend_payout_em _ => Ok (Some f)
                        | _ => unreachable
                        end |}.

End Cases.

(* ================================================================== *)
(** * Properties *)

Unset Implicit Arguments.
Local Open Scope string_scope.
Local Open Scope list_scope.
Import Sample.

(** * Rationals *)

Lemma Qltb_lt x y : Qltb x y = true <-> (x < y)%Q.
Proof. unfold Qltb. rewrite Qlt_alt. destruct (x ?= y)%Q; split; congruence. Qed.

Lemma Qltb_comp x x' y y' : (x == x')%Q -> (y == y')%Q -> Qltb x y = Qltb x' y'.
Proof. intros Ex Ey. unfold Qltb. rewrite (Qcompare_comp _ _ Ex _ _ Ey). reflexivity. Qed.

Lemma Qpos_lt x : Qpos x = true <-> (0 < x)%Q.
Proof. apply Qltb_lt. Qed.

Lemma Qpos_zero x : (x == 0)%Q -> Qpos x = false.
Proof.
  intros E. destruct (Qpos x) eqn:P; [|reflexivity].
  apply Qpos_lt in P. rewrite E in P. exfalso. exact (Qlt_irrefl _ P).
Qed.


Lemma Qsum_zero l : Forall (fun x => (x == 0)%Q) l -> (Qsum l == 0)%Q.
Proof.
  induction 1 as [|x l Hx _ IH]; simpl; [reflexivity|].
  rewrite Hx, IH. reflexivity.
Qed.


Lemma Qpos_tenth x : Qpos (x / inject_Z 10)%Q = Qpos x.
Proof.
  destruct (Qpos x) eqn:P.
  - apply Qpos_lt. apply Qpos_lt in P. apply Qlt_shift_div_l; [reflexivity|]. rewrite Qmult_0_l. exact P.
  - destruct (Qpos (x / inject_Z 10)%Q) eqn:P'; [|reflexivity].
    apply Qpos_lt in P'. assert (0 < x)%Q.
    { setoid_replace x with ((x / inject_Z 10) * inject_Z 10)%Q by field.
      apply Qmult_lt_0_compat; [exact P' | reflexivity]. }
    apply Qpos_lt in H. congruence.
Qed.

(** [round_half_even] is a nearest integer. *)
Lemma round_half_even_near q :
  (- (1 # 2) <= inject_Z (round_half_even q) - q <= 1 # 2)%Q.
Proof.
  unfold round_half_even.
  pose proof (Qfloor_le q) as Hlo. pose proof (Qlt_floor q) as Hhi.
  rewrite inject_Z_plus in Hhi. change (inject_Z 1) with 1%Q in Hhi.
  destruct (Qcompare_spec (q - inject_Z (Qfloor q)) (1 # 2)) as [E | L | G].
  - destruct (Z.even (Qfloor q)).
    + split; lra.
    + rewrite inject_Z_plus. change (inject_Z 1) with 1%Q. split; lra.
  - split; lra.
  - rewrite inject_Z_plus. change (inject_Z 1) with 1%Q. split; lra.
Qed.

(** [round6] moves a value by at most half a unit of the sixth decimal. *)
Lemma round6_near x : (Qabs (round6 x - x) <= 1 # 2000000)%Q.
Proof.
  apply Qabs_Qle_condition. unfold round6. rewrite Qred_correct.
  pose proof (round_half_even_near (x * inject_Z 1000000)) as [Hlo Hhi].
  set (n := round_half_even (x * inject_Z 1000000)) in *.
  assert (E : (n # 1000000 == inject_Z n * (1 # 1000000))%Q).
  { unfold Qeq, inject_Z, Qmult. simpl. lia. }
  rewrite E. change (inject_Z 1000000) with (1000000 # 1)%Q in *. split; lra.
Qed.

(** * The pattern search of [_parse_hkd] *)

Section PatternSearch.

Variable head : pystr -> option pystr.

(** [re_search] returns group 1 of the leftmost position at which the
    pattern matches. *)
Lemma re_search_leftmost (s g : pystr) :
  re_search head s = Some g <->
  exists pre rest,
    s = pre ++ rest /\ match_here head rest = Some g /\
    forall n, (n < List.length pre)%nat -> match_here head (skipn n s) = None.
Proof.
  split.
  - induction s as [|c s IH]; simpl.
    + destruct (match_here head []) as [g' |] eqn:E; [|discriminate].
      intros [= <-]. exists [], []. repeat split; [exact E | simpl; lia].
    + destruct (match_here head (c :: s)) as [g' |] eqn:E.
      * intros [= <-]. exists [], (c :: s). repeat split; [exact E | simpl; lia].
      * intros Hs. destruct (IH Hs) as (pre & rest & -> & Hm & Hleft).
        exists (c :: pre), rest. repeat split; [exact Hm|].
        intros [|n] Hn; [exact E|]. simpl in *. apply Hleft. lia.
  - intros (pre & rest & -> & Hm & Hleft).
    induction pre as [|c pre IH]; simpl.
    + destruct rest; simpl; rewrite Hm; reflexivity.
    + pose proof (Hleft 0%nat ltac:(simpl; lia)) as H0. simpl in H0. rewrite H0.
      apply IH. intros n Hn. apply (Hleft (S n)). simpl. lia.
Qed.

Lemma re_search_none (s : pystr) :
  re_search head s = None <->
  forall n, (n <= List.length s)%nat -> match_here head (skipn n s) = None.
Proof.
  split.
  - induction s as [|c s IH]; simpl.
    + destruct (match_here head []) eqn:E; [discriminate|].
      intros _ n Hn. destruct n; [exact E | lia].
    + destruct (match_here head (c :: s)) eqn:E; [discriminate|].
      intros Hs [|n] Hn; [exact E|]. simpl. apply IH; [exact Hs | lia].
  - induction s as [|c s IH]; intros Hn; simpl.
    + pose proof (Hn 0%nat ltac:(simpl; lia)) as H0. simpl in H0. rewrite H0. reflexivity.
    + pose proof (Hn 0%nat ltac:(simpl; lia)) as H0. simpl in H0. rewrite H0.
      apply IH. intros n Hle. apply (Hn (S n)). simpl. lia.
Qed.

End PatternSearch.

(** What a greedy [[\d.]+] takes: a maximal run of the class. *)
Lemma take_num_run (g rest : pystr) :
  forallb num_char g = true ->
  match rest with c :: _ => num_char c = false | [] => True end ->
  take_num (g ++ rest) = g.
Proof.
  intros Hg Hrest. induction g as [|c g IH]; simpl in *.
  - destruct rest as [|c r]; [reflexivity|]. simpl. rewrite Hrest. reflexivity.
  - apply andb_true_iff in Hg as [Hc Hg]. rewrite Hc, (IH Hg). reflexivity.
Qed.

(** The parser on a text whose first HKD amount is a well-formed
    decimal: the text before holds no HKD match, the glyph is in either
    script, and the run after it reads as [q]. *)
Lemma parse_hkd_reads_hkd_amount (pre g rest : pystr) (bi : char) (q : Q) :
  (forall n, (n < List.length pre)%nat ->
     match_here hkd_head (skipn n (pre ++ c_gang :: bi :: g ++ rest)) = None) ->
  bi = c_bi_s \/ bi = c_bi_t ->
  g <> [] ->
  forallb num_char g = true ->
  match rest with c :: _ => num_char c = false | [] => True end ->
  float_of_literal g = Some q ->
  _parse_hkd (pre ++ c_gang :: bi :: g ++ rest) = Ok q.
Proof.
  intros Hleft Hbi Hne Hg Hrest Hq.
  assert (Hs : re_search hkd_head (pre ++ c_gang :: bi :: g ++ rest) = Some g).
  { apply re_search_leftmost. exists pre, (c_gang :: bi :: g ++ rest).
    repeat split; [|exact Hleft].
    unfold match_here, hkd_head.
    assert (Hhead : ((c_gang =? c_gang) && ((bi =? c_bi_s) || (bi =? c_bi_t)))%N = true).
    { rewrite N.eqb_refl. destruct Hbi as [-> | ->]; reflexivity. }
    rewrite Hhead, (take_num_run _ _ Hg Hrest).
    destruct g; [congruence | reflexivity]. }
  unfold _parse_hkd, py_float_str. rewrite Hs, Hq. reflexivity.
Qed.

(** The same for the payout word, when the text holds no HKD match. *)
Lemma parse_hkd_reads_payout_amount (pre g rest : pystr) (q : Q) :
  (forall n, (n <= List.length (pre ++ c_pai :: c_xi :: g ++ rest))%nat ->
     match_here hkd_head (skipn n (pre ++ c_pai :: c_xi :: g ++ rest)) = None) ->
  (forall n, (n < List.length pre)%nat ->
     match_here paixi_head (skipn n (pre ++ c_pai :: c_xi :: g ++ rest)) = None) ->
  g <> [] ->
  forallb num_char g = true ->
  match rest with c :: _ => num_char c = false | [] => True end ->
  float_of_literal g = Some q ->
  _parse_hkd (pre ++ c_pai :: c_xi :: g ++ rest) = Ok q.
Proof.
  intros Hno Hleft Hne Hg Hrest Hq.
  assert (Hs : re_search paixi_head (pre ++ c_pai :: c_xi :: g ++ rest) = Some g).
  { apply re_search_leftmost. exists pre, (c_pai :: c_xi :: g ++ rest).
    repeat split; [|exact Hleft].
    unfold match_here, paixi_head. rewrite !N.eqb_refl. cbn [andb].
    rewrite (take_num_run _ _ Hg Hrest).
    destruct g; [congruence | reflexivity]. }
  unfold _parse_hkd, py_float_str.
  rewrite (proj2 (re_search_none hkd_head _) Hno), Hs, Hq. reflexivity.
Qed.

(** Without either pattern the parser yields 0. *)
Lemma parse_hkd_no_pattern (text : pystr) :
  (forall n, (n <= List.length text)%nat ->
     match_here hkd_head (skipn n text) = None) ->
  (forall n, (n <= List.length text)%nat ->
     match_here paixi_head (skipn n text) = None) ->
  _parse_hkd text = Ok 0%Q.
Proof.
  intros H1 H2. unfold _parse_hkd.
  rewrite (proj2 (re_search_none hkd_head text) H1).
  rewrite (proj2 (re_search_none paixi_head text) H2). reflexivity.
Qed.

(** * Lists *)

Lemma tail2_length {A} (l : list A) : (List.length (tail2 l) <= 2)%nat.
Proof. unfold tail2. rewrite length_skipn. lia. Qed.

Lemma firstn_incl {A} n (l : list A) : incl (firstn n l) l.
Proof.
  revert l. induction n as [|n IH]; intros [|x l]; simpl; try (intros y []).
  - left. assumption.
  - right. apply IH. assumption.
Qed.




Lemma insert_asc_perm x l : Permutation (Spec.insert_asc x l) (x :: l).
Proof.
  induction l as [|y l IH]; simpl; [reflexivity|].
  destruct (x <=? y)%Z; [reflexivity|].
  rewrite IH. apply perm_swap.
Qed.

Lemma sort_asc_perm l : Permutation (Spec.sort_asc l) l.
Proof.
  induction l as [|x l IH]; simpl; [reflexivity|].
  rewrite insert_asc_perm, IH. reflexivity.
Qed.

Lemma insert_asc_ascending x l : Spec.ascending l -> Spec.ascending (Spec.insert_asc x l).
Proof.
  induction l as [|y l IH]; simpl; [tauto|].
  intros Hl. destruct (Z.leb_spec x y).
  - simpl. split; [assumption | exact Hl].
  - assert (Hl' : Spec.ascending l) by (destruct l; simpl in *; tauto).
    specialize (IH Hl'). destruct l as [|z l]; simpl in *.
    + split; [lia | tauto].
    + destruct (Z.leb_spec x z); simpl; (split; [lia | tauto]).
Qed.

(** [sort_asc] puts dates in chronological order. *)
Lemma sort_asc_sorts l : Spec.ascending (Spec.sort_asc l) /\ Permutation (Spec.sort_asc l) l.
Proof.
  split; [|apply sort_asc_perm].
  induction l as [|x l IH]; simpl; [exact I|].
  apply insert_asc_ascending, IH.
Qed.

(** [strftime_ymd] on a few known days. *)
Example strftime_ymd_samples :
  strftime_ymd 0 = u8 "1970-01-01" /\
  strftime_ymd (19782 * DAY) = u8 "2024-02-29" /\
  strftime_ymd (19905 * DAY + 43200) = u8 "2024-07-01" /\
  strftime_ymd (10956 * DAY + 86399) = u8 "1999-12-31".
Proof. repeat split; reflexivity. Qed.

(** * Two requests from end to end *)

Example search_600519 :
  fst (search_stock market (ask "600519" None) blank) =
  Ok (Result {| r_symbol := u8 "600519"; r_name := u8 "贵州茅台";
                r_market := u8 "A"; r_current_price := Some (Fnum 1700);
                r_dividend := Some (1 # 2)%Q;
                r_dividend_dates := map u8 ["2023-06-27"; "2024-01-13"];
                r_dividend_currency := u8 "CNY"; r_hkd_rate := None;
                r_errors := [] |}).
Proof. reflexivity. Qed.

Example search_700 :
  fst (search_stock market (ask " 700" (Some "HK")) blank) =
  Ok (Result {| r_symbol := u8 "00700"; r_name := u8 "腾讯控股";
                r_market := u8 "HK"; r_current_price := Some (Fnum 380);
                r_dividend := Some (17 # 5)%Q;
                r_dividend_dates := map u8 ["2024-05-17"; "2023-05-18"];
                r_dividend_currency := u8 "HKD";
                r_hkd_rate := Some (1861 # 2000)%Q;
                r_errors := [] |}).
Proof. reflexivity. Qed.

(** * The A-share aggregator *)

Section AShare.

Context {cell : Type} `{Runtime cell}.
Variable w : world cell.

Lemma get_a_dividend_wf sym f s :
  answer w (stock_dividend_cninfo sym) = Ok (Some f) ->
  frame_empty f = false ->
  (5 <= List.length (columns f))%nat ->
  get_a_dividend w sym s =
  (Ok (a_aggregate w f),
   Spec.logged [Fetched (stock_dividend_cninfo sym); Invoked (Dividend_A sym)] s).
Proof.
  intros Ha Hne Hc.
  unfold get_a_dividend, try_except, bind, ak, log, lift, ret. simpl.
  rewrite Ha, Hne.
  destruct (Nat.ltb_spec (List.length (columns f)) 5); [lia|].
  reflexivity.
Qed.

Lemma no_cash_rows (rs : list (list cell)) :
  Forall (fun r => (per10 r == 0)%Q) rs ->
  filter (fun r => Qpos (per10 r)) rs = [].
Proof.
  induction 1 as [|r l Hr _ IH]; simpl; [reflexivity|].
  rewrite (Qpos_zero _ Hr). exact IH.
Qed.

Lemma in_window_since r :
  in_window w (date_at 0 r) = Spec.announced_since (now w - 365 * DAY) r.
Proof. reflexivity. Qed.




End AShare.

Section AShareClaims.

Context {cell : Type} `{Runtime cell}.
Variable w : world cell.



(** C4.  If every row of a non-empty history with at least 5 columns
    has amount 0 in column 4, [get_a_dividend] returns no amount, no
    dates and the error text "近期现金分红金额为 0". *)
Theorem a_dividend_all_zero (sym : pystr) (f : frame cell) (s : state cell) :
  answer w (stock_dividend_cninfo sym) = Ok (Some f) ->
  frame_empty f = false ->
  (5 <= List.length (columns f))%nat ->
  Forall (fun r => (per10 r == 0)%Q) (rows f) ->
  fst (get_a_dividend w sym s) = Ok (None, [], Some (u8 "近期现金分红金额为 0")).
Proof.
  intros Ha Hne Hc Hz.
  rewrite (get_a_dividend_wf w sym f s Ha Hne Hc). cbn [fst].
  assert (Hsub : forall l, incl l (rows f) -> Qpos (Qsum (map per10 l)) = false).
  { intros l Hl. apply Qpos_zero, Qsum_zero.
    rewrite Forall_map. rewrite Forall_forall in *. intros r Hr.
    apply Hz, Hl, Hr. }
  assert (Hdates : a_dates f = []).
  { unfold a_dates. rewrite (no_cash_rows _ Hz).
    destruct (pay_date_col (columns f)); reflexivity. }
  unfold a_aggregate. rewrite Hdates.
  rewrite (Hsub (firstn 2 (rows f))) by (apply firstn_incl).
  rewrite (Hsub (filter _ (rows f))) by (apply incl_filter).
  destruct (filter (fun r => in_window w (date_at 0 r)) (rows f)); reflexivity.
Qed.


End AShareClaims.






(** A history with a zero amount and a missing one. *)
Lemma a_dividend_all_zero_witness :
  fst (get_a_dividend (history zero_rows) (u8 "600519") blank) =
  Ok (None, [], Some (u8 "近期现金分红金额为 0")).
Proof.
  apply (a_dividend_all_zero (history zero_rows) (u8 "600519")
           {| columns := labels11; rows := zero_rows |} blank);
    [reflexivity | reflexivity | vm_compute; lia |].
  repeat constructor.
Defined.



(** * Running the monad *)

Section Runs.

Context {cell : Type} `{Runtime cell}.













End Runs.


Section Orchestrator.

Context {cell : Type} `{Runtime cell}.
Variable w : world cell.

Lemma lstrip_spaces q : forallb is_space q = true -> lstrip q = [].
Proof.
  induction q as [|c q IH]; simpl; [reflexivity|].
  intros Hq. apply andb_true_iff in Hq as [Hc Hq]. rewrite Hc. apply IH, Hq.
Qed.

Lemma strip_spaces q : forallb is_space q = true -> strip q = [].
Proof. intros Hq. unfold strip. rewrite (lstrip_spaces _ Hq). reflexivity. Qed.

(** C10.  A request whose query is absent, empty or made of whitespace
    only is answered with status 400 and the prompt to enter a name or
    code; the state is left as it was, so no resolver, dividend or rate
    lookup is invoked and no endpoint is called. *)
Theorem search_rejects_blank_query (req : request) (s : state cell) :
  forallb is_space (get_default (rq_query req) []) = true ->
  search_stock w req s =
  (Ok (ErrorObject 400 (u8 "请输入股票名称或代码") None), s).
Proof.
  intros Hq. unfold search_stock. rewrite (strip_spaces _ Hq). reflexivity.
Qed.








End Orchestrator.

(** A query of three spaces, with no endpoint reachable. *)
Lemma search_rejects_blank_query_witness :
  search_stock offline (ask "   " (Some "HK")) blank =
  (Ok (ErrorObject 400 (u8 "请输入股票名称或代码") None), blank).
Proof.
  exact (search_rejects_blank_query offline (ask "   " (Some "HK")) blank eq_refl).
Defined.


(** * Rate lookup *)

Section Rate.

Context {cell : Type} `{Runtime cell}.
Variable w : world cell.

Lemma find_app {A} (p : A -> bool) l1 l2 :
  find p (l1 ++ l2) = match find p l1 with Some x => Some x | None => find p l2 end.
Proof.
  induction l1 as [|x l1 IH]; simpl; [reflexivity|].
  destruct (p x); [reflexivity | exact IH].
Qed.

Lemma scan_values_find vs :
  scan_values vs = option_map round6 (find plausible (Spec.floats vs)).
Proof.
  induction vs as [|v vs IH]; simpl; [reflexivity|].
  unfold Spec.floats in *. simpl.
  destruct (py_float v) as [[r |] |]; simpl; try exact IH.
  destruct (plausible r); [reflexivity | exact IH].
Qed.

Lemma scan_rows_find rs : scan_rows rs = Spec.first_plausible_hkd rs.
Proof.
  unfold Spec.first_plausible_hkd.
  induction rs as [|row rs IH]; simpl; [reflexivity|].
  destruct (mentions_hkd row); simpl; [|exact IH].
  rewrite find_app, scan_values_find, IH.
  destruct (find plausible (Spec.floats row)); reflexivity.
Qed.

Lemma scan_cols_find cs : scan_cols cs = Spec.first_per100 cs.
Proof.
  unfold Spec.first_per100, Spec.bank_values.
  induction cs as [|[col v] cs IH]; simpl; [reflexivity|].
  destruct (mid_or_benchmark col); simpl; [|exact IH].
  destruct (to_numeric v) as [val |]; simpl; [|exact IH].
  destruct (Qltb (inject_Z 10) val); [reflexivity | exact IH].
Qed.

Lemma rate_from_spot_runs s :
  rate_from_spot w s = (Ok (Spec.spot_rate w), Spec.logged [Fetched fx_spot_quote] s).
Proof.
  unfold rate_from_spot, Spec.spot_rate, try_except, bind, ak, log, lift, ret. simpl.
  destruct (answer w fx_spot_quote) as [[f |] | e]; simpl; try reflexivity.
  destruct (frame_empty f); [reflexivity|]. rewrite scan_rows_find. reflexivity.
Qed.

Lemma rate_from_bank_runs s :
  rate_from_bank w s = (Ok (Spec.bank_rate w), Spec.logged [Fetched currency_boc_sina] s).
Proof.
  unfold rate_from_bank, Spec.bank_rate, try_except, bind, ak, log, lift, ret,
    iloc_last, of_option, raise. simpl.
  destruct (answer w currency_boc_sina) as [[f |] | e]; simpl; try reflexivity.
  destruct (frame_empty f); [destruct (rev (rows f)); reflexivity|].
  destruct (rev (rows f)) as [|last rest]; simpl; [reflexivity|].
  rewrite scan_cols_find. reflexivity.
Qed.


End Rate.



(** * Symbol caches *)

Section Caches.

Context {cell : Type} `{Runtime cell}.
Variable w : world cell.

Lemma fresh_valid (a : option (artifact cell)) art :
  a = Some art -> (now w - mtime art < 24 * 3600)%Z ->
  fresh w a = Some (payload art).
Proof.
  intros -> Hage. unfold fresh, CACHE_TTL.
  destruct (Z.ltb_spec (now w - mtime art) (24 * 3600)); [reflexivity | lia].
Qed.

Lemma fresh_invalid (a : option (artifact cell)) :
  ~ Spec.valid (now w) a -> fresh w a = None.
Proof.
  intros Hn. unfold fresh, CACHE_TTL. destruct a as [art |]; [|reflexivity].
  destruct (Z.ltb_spec (now w - mtime art) (24 * 3600)); [|reflexivity].
  exfalso. apply Hn. exists art. split; [reflexivity | assumption].
Qed.

(** C7 (as amended).  Both loaders use the artifact, untouched and
    without any endpoint call, when it exists and now minus its
    modification time is below 24 hours.  Otherwise the A loader calls
    the snapshot endpoint exactly once and persists and returns what
    it projects from the answer; the HK loader calls the primary
    snapshot endpoint and, only when that gives no usable table, the
    alternate one as well, persists and returns the first usable
    projection, and returns an empty list, persisting nothing, when
    neither is usable. *)
Theorem cache_ttl (s : state cell) :
  (forall art, cache_a s = Some art -> (now w - mtime art < 24 * 3600)%Z ->
     _load_a_cache w s = (Ok (payload art), s)) /\
  (~ Spec.valid (now w) (cache_a s) ->
     exists r s',
       _load_a_cache w s = (r, s') /\
       trace s' = Fetched stock_zh_a_spot_em :: trace s /\
       forall f es,
         answer w stock_zh_a_spot_em = Ok (Some f) -> project f = Ok es ->
         r = Ok es /\ cache_a s' = Some {| mtime := now w; payload := es |}) /\
  (forall art, cache_hk s = Some art -> (now w - mtime art < 24 * 3600)%Z ->
     _load_hk_cache w s = (Ok (payload art), s)) /\
  (~ Spec.valid (now w) (cache_hk s) ->
     match Spec.usable (answer w stock_hk_spot_em),
           Spec.usable (answer w stock_hk_main_board_spot_em) with
     | Some es, _ =>
         _load_hk_cache w s =
         (Ok es, {| cache_a := cache_a s;
                    cache_hk := Some {| mtime := now w; payload := es |};
                    trace := Fetched stock_hk_spot_em :: trace s |})
     | None, Some es =>
         _load_hk_cache w s =
         (Ok es, {| cache_a := cache_a s;
                    cache_hk := Some {| mtime := now w; payload := es |};
                    trace := Fetched stock_hk_main_board_spot_em
                             :: Fetched stock_hk_spot_em :: trace s |})
     | None, None =>
         _load_hk_cache w s =
         (Ok [], Spec.logged [Fetched stock_hk_main_board_spot_em;
                              Fetched stock_hk_spot_em] s)
     end).
Proof.
  repeat split.
  - intros art Ha Hage. unfold _load_a_cache, bind, get_cache_a.
    rewrite (fresh_valid _ art Ha Hage). reflexivity.
  - intros Hn. unfold _load_a_cache, bind, get_cache_a.
    rewrite (fresh_invalid _ Hn).
    unfold ak, bind, log, lift, deref, ret, raise, set_cache_a. simpl.
    destruct (answer w stock_zh_a_spot_em) as [[f |] | e]; simpl.
    + destruct (project f) as [es | e] eqn:Hp; simpl;
        (eexists; eexists; split; [reflexivity|]; split; [reflexivity|]);
        intros f' es' Hf Hes; inversion Hf; subst f'; rewrite Hp in Hes;
        [inversion Hes; subst; split; reflexivity | discriminate].
    + eexists; eexists; split; [reflexivity|]; split; [reflexivity|].
      intros ? ? Hf; discriminate.
    + eexists; eexists; split; [reflexivity|]; split; [reflexivity|].
      intros ? ? Hf; discriminate.
  - intros art Ha Hage. unfold _load_hk_cache, bind, get_cache_hk.
    rewrite (fresh_valid _ art Ha Hage). reflexivity.
  - intros Hn. unfold _load_hk_cache, bind, get_cache_hk.
    rewrite (fresh_invalid _ Hn).
    unfold refetch_hk, Spec.usable, try_except, ak, bind, log, lift, ret, set_cache_hk.
    simpl.
    destruct (answer w stock_hk_spot_em) as [[f1 |] | e1]; simpl;
      [destruct (negb (frame_empty f1) && has_label f1 L_code); simpl;
       [destruct (project f1); simpl; [reflexivity|] |] | |];
      (destruct (answer w stock_hk_main_board_spot_em) as [[f2 |] | e2]; simpl;
       [destruct (negb (frame_empty f2) && has_label f2 L_code); simpl;
        [destruct (project f2); simpl |] | |]; reflexivity).
Qed.

End Caches.

(** Both artifacts written 23 hours ago. *)
Lemma cache_ttl_witness :
  _load_a_cache hk_primary_down (cached 23 [tencent_entry]) =
    (Ok [tencent_entry], cached 23 [tencent_entry]) /\
  _load_hk_cache hk_primary_down (cached 23 [tencent_entry]) =
    (Ok [tencent_entry], cached 23 [tencent_entry]).
Proof.
  split.
  - exact (proj1 (cache_ttl hk_primary_down (cached 23 [tencent_entry]))
             _ eq_refl ltac:(vm_compute; reflexivity)).
  - exact (proj1 (proj2 (proj2 (cache_ttl hk_primary_down (cached 23 [tencent_entry]))))
             _ eq_refl ltac:(vm_compute; reflexivity)).
Defined.

(** C7, as stated, fails: with an artifact 25 hours old and the primary
    HK snapshot failing, the loader makes two endpoint calls, not one. *)
Lemma cache_refetch_may_call_twice :
  (noon - mtime {| mtime := noon - hours 25; payload := @nil (cache_entry scell) |}
   = 25 * 3600)%Z /\
  Spec.fetches (trace (snd (_load_hk_cache hk_primary_down (cached 25 [])))) =
  [Fetched stock_hk_main_board_spot_em; Fetched stock_hk_spot_em] /\
  fst (_load_hk_cache hk_primary_down (cached 25 [])) = Ok [tencent_entry].
Proof. vm_compute. repeat split. Qed.

(** * Resolvers *)

Section Resolvers.

Context {cell : Type} `{Runtime cell}.
Variable w : world cell.

Lemma filter_find {A} (p : A -> bool) l :
  find p l = match filter p l with e :: _ => Some e | [] => None end.
Proof.
  induction l as [|x l IH]; simpl; [reflexivity|].
  destruct (p x); [reflexivity | exact IH].
Qed.






End Resolvers.



(** * HK distribution text *)

(** C3.  The two texts of the specification parse to 1.118595 and 0.5;
    but when the run of digits and full stops after the HKD glyph is
    not a number, as with a full stop closing the sentence, the parser
    raises instead of yielding 0.55. *)
Theorem parse_hkd_examples :
  _parse_hkd (u8 "每股派息1.013元(相当于港币1.118595元)") = Ok (223719 # 200000)%Q /\
  _parse_hkd (u8 "派息0.5元") = Ok (1 # 2)%Q /\
  _parse_hkd (u8 "每股派息0.5元,相当于港币0.55.") = Raise (ValueError (u8 "0.55.")).
Proof. repeat split; vm_compute; reflexivity. Qed.

(* ================================================================== *)
(** * Further properties of the code *)

(** What follows covers the code the specification does not speak of:
    the rest of the pipeline's behaviour on failures, its effects on
    the cache files, the search route as a whole, and the watchlist
    routes. *)

(** * Rounding keeps bounds *)

Lemma round_half_even_ge (a : Z) (q : Q) :
  (inject_Z a <= q)%Q -> (a <= round_half_even q)%Z.
Proof.
  intros Ha. assert (Hf : (a <= Qfloor q)%Z).
  { rewrite <- (Qfloor_Z a). apply Qfloor_resp_le. exact Ha. }
  unfold round_half_even.
  destruct (_ ?= _)%Q; [destruct (Z.even _) | |]; lia.
Qed.

Lemma round_half_even_le (b : Z) (q : Q) :
  (q <= inject_Z b)%Q -> (round_half_even q <= b)%Z.
Proof.
  intros Hb. pose proof (Qfloor_le q) as Hlo.
  assert (Hf : (Qfloor q <= b)%Z).
  { rewrite <- (Qfloor_Z b). apply Qfloor_resp_le. exact Hb. }
  assert (Hup : (1 # 2 <= q - inject_Z (Qfloor q))%Q -> (Qfloor q + 1 <= b)%Z).
  { intros Hhalf. destruct (Z.eq_dec (Qfloor q) b) as [E | N]; [|lia].
    rewrite E in Hhalf. exfalso. lra. }
  unfold round_half_even.
  destruct (Qcompare_spec (q - inject_Z (Qfloor q)) (1 # 2)) as [E | L | G].
  - destruct (Z.even _); [lia|]. apply Hup. rewrite E. apply Qle_refl.
  - lia.
  - apply Hup. apply Qlt_le_weak. exact G.
Qed.

Lemma round6_ge (a : Z) (x : Q) : (a # 1000000 <= x)%Q -> (a # 1000000 <= round6 x)%Q.
Proof.
  intros Ha. unfold round6. rewrite Qred_correct.
  assert (Hq : (inject_Z a <= x * inject_Z 1000000)%Q).
  { unfold Qle in *. simpl in *. lia. }
  pose proof (round_half_even_ge a _ Hq) as Hr.
  unfold Qle. simpl. lia.
Qed.

Lemma round6_le (b : Z) (x : Q) : (x <= b # 1000000)%Q -> (round6 x <= b # 1000000)%Q.
Proof.
  intros Hb. unfold round6. rewrite Qred_correct.
  assert (Hq : (x * inject_Z 1000000 <= inject_Z b)%Q).
  { unfold Qle in *. simpl in *. lia. }
  pose proof (round_half_even_le b _ Hq) as Hr.
  unfold Qle. simpl. lia.
Qed.

Lemma Qltb_false_le x y : Qltb x y = false -> (y <= x)%Q.
Proof.
  intros Hf. apply Qnot_lt_le. intros Hlt. apply Qltb_lt in Hlt. congruence.
Qed.

Lemma plausible_bounds r : plausible r = true -> (1 # 2 <= r <= 3 # 2)%Q.
Proof.
  unfold plausible. intros Hp. apply andb_true_iff in Hp as [H1 H2].
  apply negb_true_iff in H1, H2. split; apply Qltb_false_le; assumption.
Qed.

(** * More on the rate lookup *)

Section RateMore.

Context {cell : Type} `{Runtime cell}.
Variable w : world cell.

Lemma get_rate_runs (s : state cell) :
  get_hkd_cny_rate w s =
  (Ok (Spec.rate w),
   Spec.logged (match Spec.spot_rate w with
                | Some _ => [Fetched fx_spot_quote; Invoked Rate_lookup]
                | None => [Fetched currency_boc_sina; Fetched fx_spot_quote;
                           Invoked Rate_lookup]
                end) s).
Proof.
  unfold get_hkd_cny_rate, Spec.rate, bind, log, ret.
  rewrite rate_from_spot_runs.
  destruct (Spec.spot_rate w) as [r |]; [reflexivity|].
  rewrite rate_from_bank_runs.
  destruct (Spec.bank_rate w); reflexivity.
Qed.

Lemma spot_rate_bounds r : Spec.spot_rate w = Some r -> (1 # 2 <= r <= 3 # 2)%Q.
Proof.
  unfold Spec.spot_rate, Spec.first_plausible_hkd.
  destruct (answer w fx_spot_quote) as [[f |] | e]; try discriminate.
  destruct (frame_empty f); [discriminate|].
  destruct (find plausible _) as [x |] eqn:Hfind; [|discriminate].
  intros [= <-]. apply find_some in Hfind as [_ Hp].
  apply plausible_bounds in Hp as [Hlo Hhi]. split.
  - apply (Qle_trans _ (500000 # 1000000)); [unfold Qle; simpl; lia|].
    apply round6_ge. eapply Qle_trans; [|exact Hlo]. unfold Qle; simpl; lia.
  - apply (Qle_trans _ (1500000 # 1000000)); [|unfold Qle; simpl; lia].
    apply round6_le. eapply Qle_trans; [exact Hhi|]. unfold Qle; simpl; lia.
Qed.

Lemma bank_rate_bound r : Spec.bank_rate w = Some r -> (1 # 10 <= r)%Q.
Proof.
  unfold Spec.bank_rate, Spec.first_per100.
  destruct (answer w currency_boc_sina) as [[f |] | e]; try discriminate.
  destruct (rev (rows f)) as [|last rest]; [discriminate|].
  destruct (frame_empty f); [discriminate|].
  destruct (find _ _) as [v |] eqn:Hfind; [|discriminate].
  intros [= <-]. apply find_some in Hfind as [_ Hv]. apply Qltb_lt in Hv.
  apply (Qle_trans _ (100000 # 1000000)); [unfold Qle; simpl; lia|].
  apply round6_ge.
  assert (Hd : (v / inject_Z 100 == v * (1 # 100))%Q) by (field).
  rewrite Hd. change (inject_Z 10) with (10 # 1)%Q in Hv. 
  assert (Hlt : (100000 # 1000000 == (10 # 1) * (1 # 100))%Q) by reflexivity.
  rewrite Hlt. apply Qmult_le_compat_r; [apply Qlt_le_weak; exact Hv | discriminate].
Qed.


(** X1.  Whatever the provider answers, the rate returned is at least
    0.1, so it is never zero or negative; a rate taken from the spot
    table lies within [0.5, 1.5] after rounding too. *)
Theorem rate_is_plausible (s : state cell) :
  exists r,
    fst (get_hkd_cny_rate w s) = Ok r /\
    (1 # 10 <= r)%Q /\
    (Spec.spot_rate w <> None -> (1 # 2 <= r <= 3 # 2)%Q).
Proof.
  exists (Spec.rate w). rewrite get_rate_runs. split; [reflexivity|].
  unfold Spec.rate.
  destruct (Spec.spot_rate w) as [r |] eqn:Hs.
  - pose proof (spot_rate_bounds r Hs) as [Hlo Hhi]. split.
    + eapply Qle_trans; [|exact Hlo]. unfold Qle; simpl; lia.
    + intros _. split; assumption.
  - split; [|congruence].
    destruct (Spec.bank_rate w) as [r |] eqn:Hb.
    + apply (bank_rate_bound r Hb).
    + unfold Qle; simpl; lia.
Qed.

(** X2.  The rate lookup calls the spot endpoint once, calls the bank
    endpoint after it exactly when the spot table gives no rate, and
    leaves both cache files as they are. *)
Theorem rate_lookup_effects (s : state cell) :
  snd (get_hkd_cny_rate w s) =
  {| cache_a := cache_a s; cache_hk := cache_hk s;
     trace := (match Spec.spot_rate w with
               | Some _ => [Fetched fx_spot_quote]
               | None => [Fetched currency_boc_sina; Fetched fx_spot_quote]
               end) ++ Invoked Rate_lookup :: trace s |}.
Proof.
  rewrite get_rate_runs. cbn [snd]. unfold Spec.logged.
  destruct (Spec.spot_rate w); reflexivity.
Qed.

End RateMore.

(** * Exceptions and the cache files across the pipeline *)

Section Safety.

Context {cell : Type} `{Runtime cell}.

Lemma total_ret {A} (a : A) : Spec.total (ret (cell := cell) a).
Proof. intros s. exists a. reflexivity. Qed.

Lemma total_log ev : Spec.total (log (cell := cell) ev).
Proof. intros s. exists tt. reflexivity. Qed.

Lemma total_bind {A B} (m : M cell A) (k : A -> M cell B) :
  Spec.total m -> (forall a, Spec.total (k a)) -> Spec.total (bind m k).
Proof.
  intros Hm Hk s. unfold bind. destruct (Hm s) as [a Ha].
  destruct (m s) as [[a' | e] s1]; simpl in Ha; [|discriminate].
  apply Hk.
Qed.

Lemma total_try {A} (m : M cell A) (h : exn -> M cell A) :
  (forall e, Spec.total (h e)) -> Spec.total (try_except m h).
Proof.
  intros Hh s. unfold try_except. destruct (m s) as [[a | e] s1].
  - exists a. reflexivity.
  - apply Hh.
Qed.

Lemma preserves_ret {A X} (part : state cell -> X) (a : A) :
  Effects.preserves part (ret (cell := cell) a).
Proof. intros s. reflexivity. Qed.

Lemma preserves_raise {A X} (part : state cell -> X) e :
  Effects.preserves part (raise (cell := cell) (A := A) e).
Proof. intros s. reflexivity. Qed.

Lemma preserves_lift {A X} (part : state cell -> X) (r : res A) :
  Effects.preserves part (lift (cell := cell) r).
Proof. intros s. reflexivity. Qed.

Lemma preserves_bind {A B X} (part : state cell -> X) (m : M cell A) (k : A -> M cell B) :
  Effects.preserves part m -> (forall a, Effects.preserves part (k a)) ->
  Effects.preserves part (bind m k).
Proof.
  intros Hm Hk s. unfold bind. specialize (Hm s).
  destruct (m s) as [[a | e] s1]; simpl in *.
  - rewrite Hk. exact Hm.
  - exact Hm.
Qed.

Lemma preserves_try {A X} (part : state cell -> X) (m : M cell A) (h : exn -> M cell A) :
  Effects.preserves part m -> (forall e, Effects.preserves part (h e)) ->
  Effects.preserves part (try_except m h).
Proof.
  intros Hm Hh s. unfold try_except. specialize (Hm s).
  destruct (m s) as [[a | e] s1]; simpl in *.
  - exact Hm.
  - rewrite Hh. exact Hm.
Qed.

End Safety.

Ltac total_step :=
  lazymatch goal with
  | |- Spec.total (ret _) => apply total_ret
  | |- Spec.total (log _) => apply total_log
  | |- Spec.total (bind _ _) => apply total_bind; [| intros ?]
  | |- Spec.total (try_except _ _) => apply total_try; intros ?
  | |- Spec.total (match ?x with _ => _ end) => destruct x
  end.

(** Steps through a computation whose primitive effects keep [part]:
    the log, and the writes of the other cache file. *)
Ltac keep_step :=
  lazymatch goal with
  | |- Effects.preserves _ (ret _) => apply preserves_ret
  | |- Effects.preserves _ (raise _) => apply preserves_raise
  | |- Effects.preserves _ (lift _) => apply preserves_lift
  | |- Effects.preserves _ (bind _ _) => apply preserves_bind; [| intros ?]
  | |- Effects.preserves _ (try_except _ _) => apply preserves_try; [| intros ?]
  | |- Effects.preserves _ (of_option _ ?o) => destruct o; unfold of_option
  | |- Effects.preserves _ (deref _ ?o) => destruct o; unfold deref
  | |- Effects.preserves _ (match ?x with _ => _ end) => destruct x
  | |- Effects.preserves _ _ => intros ?; reflexivity
  end.

Section SafetyOfPipeline.

Context {cell : Type} `{Runtime cell}.
Variable w : world cell.



Lemma total_a_dividend sym : Spec.total (get_a_dividend w sym).
Proof. unfold get_a_dividend. repeat total_step. Qed.

Lemma total_hk_dividend sym : Spec.total (get_hk_dividend w sym).
Proof. unfold get_hk_dividend. repeat total_step. Qed.

Lemma total_rate : Spec.total (get_hkd_cny_rate w).
Proof. intros s. exists (Spec.rate w). rewrite get_rate_runs. reflexivity. Qed.




Lemma keeps_hk_load_a : Effects.preserves (@cache_hk cell) (_load_a_cache w).
Proof. unfold _load_a_cache, ak. repeat keep_step. Qed.

Lemma keeps_a_load_hk : Effects.preserves (@cache_a cell) (_load_hk_cache w).
Proof. unfold _load_hk_cache, refetch_hk, ak. repeat keep_step. Qed.

End SafetyOfPipeline.

Section FrameOfPipeline.

Context {cell : Type} `{Runtime cell}.
Variable w : world cell.

Lemma keeps_parse_rows {X} (part : state cell -> X) rs :
  Effects.preserves part (parse_rows rs).
Proof. induction rs as [|r rs IH]; simpl; repeat keep_step. exact IH. Qed.

Lemma keeps_a_lookup_a code : Effects.preserves (@cache_a cell) (_get_a_stock_by_code w code).
Proof. unfold _get_a_stock_by_code, ak, iloc, field. repeat keep_step. Qed.

Lemma keeps_hk_lookup_a code : Effects.preserves (@cache_hk cell) (_get_a_stock_by_code w code).
Proof. unfold _get_a_stock_by_code, ak, iloc, field. repeat keep_step. Qed.

Lemma keeps_a_lookup_hk code : Effects.preserves (@cache_a cell) (_get_hk_stock_by_code w code).
Proof.
  unfold _get_hk_stock_by_code, hk_name, hk_price, ak, iloc, iloc_last, field, to_float.
  repeat keep_step.
Qed.

Lemma keeps_hk_lookup_hk code : Effects.preserves (@cache_hk cell) (_get_hk_stock_by_code w code).
Proof.
  unfold _get_hk_stock_by_code, hk_name, hk_price, ak, iloc, iloc_last, field, to_float.
  repeat keep_step.
Qed.

Lemma keeps_hk_search_a q : Effects.preserves (@cache_hk cell) (search_a_stock w q).
Proof.
  unfold search_a_stock.
  repeat first [ apply keeps_hk_lookup_a | apply keeps_hk_load_a | keep_step ].
Qed.

Lemma keeps_a_search_hk q : Effects.preserves (@cache_a cell) (search_hk_stock w q).
Proof.
  unfold search_hk_stock.
  repeat first [ apply keeps_a_lookup_hk | apply keeps_a_load_hk | keep_step ].
Qed.

Lemma keeps_a_dividend {X} (part : state cell -> X) sym :
  (forall s ev, part {| cache_a := cache_a s; cache_hk := cache_hk s;
                        trace := ev :: trace s |} = part s) ->
  Effects.preserves part (get_a_dividend w sym) /\
  Effects.preserves part (get_hk_dividend w sym) /\
  Effects.preserves part (get_hkd_cny_rate w).
Proof.
  intros Hlog.
  assert (Hl : forall ev, Effects.preserves part (log ev)) by (intros ev s; apply Hlog).
  assert (Hak : forall e, Effects.preserves part (ak w e)).
  { intros e. unfold ak. apply preserves_bind; [apply Hl | intros; apply preserves_lift]. }
  repeat split.
  - unfold get_a_dividend. repeat first [ apply Hl | apply Hak | keep_step ].
  - unfold get_hk_dividend.
    repeat first [ apply Hl | apply Hak | apply keeps_parse_rows | keep_step ].
  - unfold get_hkd_cny_rate, rate_from_spot, rate_from_bank, iloc_last.
    repeat first [ apply Hl | apply Hak | keep_step ].
Qed.

Lemma keeps_attempt {A X} (part : state cell -> X) r (m : M cell A) k :
  Effects.preserves part m -> (forall a, Effects.preserves part (k a)) ->
  Effects.preserves part (attempt r m k).
Proof.
  intros Hm Hk. unfold attempt. apply preserves_bind.
  - apply preserves_try; [|intros; apply preserves_ret].
    apply preserves_bind; [exact Hm | intros; apply preserves_ret].
  - intros [a | e]; [apply Hk | apply preserves_ret].
Qed.

(** X4.  Each market's search leaves the other market's cache file
    alone, and the dividend and rate lookups touch neither: the A
    resolver and an A search never write the HK file, the HK resolver
    and an HK search never write the A file. *)
Theorem cache_files_frame :
  (forall q s, cache_hk (snd (search_a_stock w q s)) = cache_hk s) /\
  (forall q s, cache_a (snd (search_hk_stock w q s)) = cache_a s) /\
  (forall sym s, cache_a (snd (get_a_dividend w sym s)) = cache_a s /\
                 cache_hk (snd (get_a_dividend w sym s)) = cache_hk s) /\
  (forall sym s, cache_a (snd (get_hk_dividend w sym s)) = cache_a s /\
                 cache_hk (snd (get_hk_dividend w sym s)) = cache_hk s) /\
  (forall req s,
     PyStr.eqb (get_default (rq_market req) MARKET_A) MARKET_A = true ->
     cache_hk (snd (search_stock w req s)) = cache_hk s) /\
  (forall req s,
     PyStr.eqb (get_default (rq_market req) MARKET_A) MARKET_A = false ->
     cache_a (snd (search_stock w req s)) = cache_a s).
Proof.
  pose proof (fun sym => keeps_a_dividend (@cache_a cell) sym
                           (fun s ev => eq_refl)) as Ka.
  pose proof (fun sym => keeps_a_dividend (@cache_hk cell) sym
                           (fun s ev => eq_refl)) as Kh.
  assert (HA : forall req s,
             PyStr.eqb (get_default (rq_market req) MARKET_A) MARKET_A = true ->
             cache_hk (snd (search_stock w req s)) = cache_hk s).
  { intros req s Hm. unfold search_stock. rewrite Hm.
    destruct (strip _) as [|c q]; [reflexivity|].
    revert s. change (Effects.preserves (@cache_hk cell)
                        (search_a_path w (c :: q) (shell (c :: q)
                           (get_default (rq_market req) MARKET_A)))).
    unfold search_a_path.
    apply keeps_attempt; [apply keeps_hk_search_a | intros info].
    apply keeps_attempt; [apply (proj1 (Kh _)) | intros; apply preserves_ret]. }
  assert (HH : forall req s,
             PyStr.eqb (get_default (rq_market req) MARKET_A) MARKET_A = false ->
             cache_a (snd (search_stock w req s)) = cache_a s).
  { intros req s Hm. unfold search_stock. rewrite Hm.
    destruct (strip _) as [|c q]; [reflexivity|].
    revert s. change (Effects.preserves (@cache_a cell)
                        (search_hk_path w (c :: q) (shell (c :: q)
                           (get_default (rq_market req) MARKET_A)))).
    unfold search_hk_path.
    apply keeps_attempt; [apply keeps_a_search_hk | intros [i |]];
      [|apply preserves_ret].
    apply keeps_attempt; [apply (proj1 (proj2 (Ka _))) | intros o].
    apply keeps_attempt; [apply (proj2 (proj2 (Ka []))) | intros; apply preserves_ret]. }
  repeat split.
  - intros q s. apply keeps_hk_search_a.
  - intros q s. apply keeps_a_search_hk.
  - apply (proj1 (Ka sym)).
  - apply (proj1 (Kh sym)).
  - apply (proj1 (proj2 (Ka sym))).
  - apply (proj1 (proj2 (Kh sym))).
  - exact HA.
  - exact HH.
Qed.

End FrameOfPipeline.

(** * The direct HK lookup *)

Section HkLookup.

Context {cell : Type} `{Runtime cell}.
Variable w : world cell.

Lemma zfill5_length (s : pystr) : (5 <= List.length (zfill5 s))%nat.
Proof.
  unfold zfill5, pystr, char in *. destruct s as [|c s'].
  - simpl. lia.
  - destruct ((c =? 43) || (c =? 45))%N.
    + change (List.length (c :: repeat 48%N (5 - List.length (c :: s')) ++ s'))
        with (S (List.length (repeat 48%N (5 - List.length (c :: s')) ++ s'))).
      rewrite length_app, repeat_length. cbn [List.length]. lia.
    + rewrite length_app, repeat_length. lia.
Qed.

Lemma zfill5_long (s : pystr) : (5 <= List.length s)%nat -> zfill5 s = s.
Proof.
  intros Hl. unfold zfill5, pystr, char in *.
  replace (5 - List.length s)%nat with 0%nat by lia. simpl.
  destruct s as [|c s']; [simpl in Hl; lia|].
  destruct ((c =? 43) || (c =? 45))%N; reflexivity.
Qed.

Lemma zfill5_idempotent (s : pystr) : zfill5 (zfill5 s) = zfill5 s.
Proof. apply zfill5_long, zfill5_length. Qed.

(** The profile stage: one call, and the padded code as name unless the
    profile's first row has a second cell. *)
Lemma hk_name_runs code s :
  exists nm,
    hk_name w code s = (Ok nm, Spec.logged [Fetched (stock_hk_security_profile_em code)] s) /\
    (match answer w (stock_hk_security_profile_em code) with
     | Ok (Some prof) =>
         if frame_empty prof then nm = code
         else match rows prof with
              | (_ :: v :: _) :: _ => nm = py_str v
              | _ => nm = code
              end
     | _ => nm = code
     end).
Proof.
  unfold hk_name, try_except, bind, ak, log, lift, deref, iloc, of_option, ret, raise.
  cbn [fst snd]. unfold Spec.logged. cbn [app].
  destruct (answer w (stock_hk_security_profile_em code)) as [[prof |] | e]; cbn.
  - destruct (frame_empty prof); cbn; [eexists; split; reflexivity|].
    destruct (rows prof) as [|[|c0 [|v r]] rs]; cbn; eexists; split; reflexivity.
  - eexists; split; reflexivity.
  - eexists; split; reflexivity.
Qed.

Lemma ak_runs e s : ak w e s = (answer w e, Spec.logged [Fetched e] s).
Proof. reflexivity. Qed.

Lemma deref_runs err (o : option (frame cell)) (s : state cell) :
  deref err o s = (match o with Some f => Ok f | None => Raise err end, s).
Proof. destruct o; reflexivity. Qed.

Lemma of_option_runs {A} err (o : option A) (s : state cell) :
  of_option err o s = (match o with Some a => Ok a | None => Raise err end, s).
Proof. destruct o; reflexivity. Qed.

Lemma iloc_last_runs (f : frame cell) (s : state cell) :
  iloc_last f s =
  (match rev (rows f) with last :: _ => Ok last | [] => Raise IndexError end, s).
Proof. unfold iloc_last. rewrite of_option_runs. destruct (rev (rows f)); reflexivity. Qed.

Lemma field_runs (f : frame cell) row l (s : state cell) :
  field f row l s =
  (match col_index (columns f) l with
   | Some i => match nth_error row i with Some c => Ok c | None => Raise IndexError end
   | None => Raise (KeyError l)
   end, s).
Proof.
  unfold field. destruct (col_index (columns f) l) as [i |]; [|reflexivity].
  apply of_option_runs.
Qed.

Lemma to_float_runs v (s : state cell) :
  to_float v s =
  (match py_float v with Some x => Ok x | None => Raise (ValueError (py_str v)) end, s).
Proof. unfold to_float. destruct (py_float v); reflexivity. Qed.

Lemma hk_price_logs code s :
  exists p evs, hk_price w code s = (Ok p, Spec.logged evs s).
Proof.
  unfold hk_price, try_except, bind, ret.
  rewrite ak_runs.
  assert (Hhist : exists p,
            (let (r, s') :=
               let (r, s') := ak w (stock_hk_hist code)
                                (Spec.logged [Fetched (stock_hk_daily code)] s) in
               match r with
               | Ok a =>
                   (let (r0, s'0) := deref AttributeError a s' in
                    match r0 with
                    | Ok a0 =>
                        (if frame_empty a0 then fun s0 => (Ok None, s0)
                         else fun s0 =>
                           let (r1, s'1) := iloc_last a0 s0 in
                           match r1 with
                           | Ok a1 =>
                               let (r2, s'2) := of_option IndexError (nth_error a1 2) s'1 in
                               match r2 with
                               | Ok a2 =>
                                   let (r3, s'3) := to_float a2 s'2 in
                                   match r3 with
                                   | Ok a3 => (Ok (Some a3), s'3)
                                   | Raise e => (Raise e, s'3)
                                   end
                               | Raise e => (Raise e, s'2)
                               end
                           | Raise e => (Raise e, s'1)
                           end) s'0
                    | Raise e => (Raise e, s'0)
                    end)
               | Raise e => (Raise e, s')
               end in
             match r with
             | Ok a => (Ok a, s')
             | Raise _ => (Ok None, s')
             end) =
            (Ok p, Spec.logged [Fetched (stock_hk_hist code);
                                Fetched (stock_hk_daily code)] s)).
  { rewrite ak_runs.
    destruct (answer w (stock_hk_hist code)) as [[h2 |] | e2];
      rewrite ?deref_runs; [|eexists; reflexivity ..].
    destruct (frame_empty h2); [eexists; reflexivity|].
    rewrite iloc_last_runs. destruct (rev (rows h2)) as [|l2 r2]; [eexists; reflexivity|].
    rewrite of_option_runs. destruct (nth_error l2 2) as [v2 |]; [|eexists; reflexivity].
    rewrite to_float_runs. destruct (py_float v2); eexists; reflexivity. }
  destruct Hhist as [p2 Hhist].
  destruct (answer w (stock_hk_daily code)) as [[hist |] | e];
    rewrite ?deref_runs; [|exists p2; eexists; exact Hhist ..].
  destruct (frame_empty hist); [eexists; eexists; reflexivity|].
  rewrite iloc_last_runs.
  destruct (rev (rows hist)) as [|last rest]; [exists p2; eexists; exact Hhist|].
  rewrite field_runs.
  destruct (col_index (columns hist) L_close) as [i |]; [|exists p2; eexists; exact Hhist].
  destruct (nth_error last i) as [v |]; [|exists p2; eexists; exact Hhist].
  rewrite to_float_runs.
  destruct (py_float v); [eexists; eexists; reflexivity | exists p2; eexists; exact Hhist].
Qed.

(** X5.  The direct HK lookup never raises and answers under the code
    padded with zeros to at least 5 characters; when the profile
    endpoint fails, answers nothing or answers an empty table, the
    padded code stands in for the name; when both price endpoints fail
    the price is absent. *)
Theorem hk_direct_lookup (code : pystr) (s : state cell) :
  exists nm p,
    fst (_get_hk_stock_by_code w code s) =
      Ok {| symbol := zfill5 code; name := nm; current_price := p |} /\
    (5 <= List.length (zfill5 code))%nat /\
    (match answer w (stock_hk_security_profile_em (zfill5 code)) with
     | Ok (Some prof) => frame_empty prof = true
     | _ => True
     end -> nm = zfill5 code) /\
    ((exists e, answer w (stock_hk_daily (zfill5 code)) = Raise e) ->
     (exists e, answer w (stock_hk_hist (zfill5 code)) = Raise e) ->
     p = None).
Proof.
  unfold _get_hk_stock_by_code, bind, ret.
  destruct (hk_name_runs (zfill5 code) s) as (nm & -> & Hnm).
  exists nm.
  assert (Hp : exists p,
             hk_price w (zfill5 code)
               (Spec.logged [Fetched (stock_hk_security_profile_em (zfill5 code))] s)
             = (Ok p, snd (hk_price w (zfill5 code)
                 (Spec.logged [Fetched (stock_hk_security_profile_em (zfill5 code))] s)))
             /\ ((exists e, answer w (stock_hk_daily (zfill5 code)) = Raise e) ->
                 (exists e, answer w (stock_hk_hist (zfill5 code)) = Raise e) ->
                 p = None)).
  { destruct (hk_price_logs (zfill5 code)
                (Spec.logged [Fetched (stock_hk_security_profile_em (zfill5 code))] s))
      as (p & evs & E).
    exists p. rewrite E. split; [reflexivity|].
    intros [e1 H1] [e2 H2]. revert E.
    unfold hk_price, try_except, bind, ret.
    rewrite ak_runs, H1, ak_runs, H2. congruence. }
  destruct Hp as (p & E & Hnone). exists p. rewrite E. cbn [fst].
  split; [reflexivity|]. split; [apply zfill5_length|]. split; [|exact Hnone].
  destruct (answer w (stock_hk_security_profile_em (zfill5 code))) as [[prof |] | e];
    [intros Hempty; rewrite Hempty in Hnm; exact Hnm | intros _; exact Hnm ..].
Qed.

(** X6.  The second price endpoint is a fallback for failure, not for
    emptiness: an empty daily table gives no price and no second call;
    a daily table whose last close reads as a float gives that close
    and no second call; a daily call that raises is followed by one
    call to the ten-day history, whose last row's third cell then
    decides the price. *)
Theorem hk_price_cascade (code : pystr) (s : state cell) :
  (forall hist,
     answer w (stock_hk_daily code) = Ok (Some hist) -> frame_empty hist = true ->
     hk_price w code s = (Ok None, Spec.logged [Fetched (stock_hk_daily code)] s)) /\
  (forall hist last rest i v x,
     answer w (stock_hk_daily code) = Ok (Some hist) -> frame_empty hist = false ->
     rev (rows hist) = last :: rest ->
     col_index (columns hist) L_close = Some i -> nth_error last i = Some v ->
     py_float v = Some x ->
     hk_price w code s = (Ok (Some x), Spec.logged [Fetched (stock_hk_daily code)] s)) /\
  (forall e,
     answer w (stock_hk_daily code) = Raise e ->
     exists p,
       hk_price w code s =
         (Ok p, Spec.logged [Fetched (stock_hk_hist code); Fetched (stock_hk_daily code)] s) /\
       (forall h2 last rest v x,
          answer w (stock_hk_hist code) = Ok (Some h2) -> frame_empty h2 = false ->
          rev (rows h2) = last :: rest -> nth_error last 2 = Some v ->
          py_float v = Some x -> p = Some x) /\
       (forall h2,
          answer w (stock_hk_hist code) = Ok (Some h2) -> frame_empty h2 = true ->
          p = None) /\
       (forall e2, answer w (stock_hk_hist code) = Raise e2 -> p = None)).
Proof.
  unfold hk_price, try_except, bind, ret. rewrite ak_runs. repeat split.
  - intros hist Ha He. rewrite Ha, deref_runs, He. reflexivity.
  - intros hist last rest i v x Ha He Hl Hi Hv Hx.
    rewrite Ha, deref_runs, He, iloc_last_runs, Hl, field_runs, Hi, Hv, to_float_runs, Hx.
    reflexivity.
  - intros e Ha. rewrite Ha, ak_runs.
    destruct (answer w (stock_hk_hist code)) as [[h2 |] | e2]; rewrite ?deref_runs;
      [|exists None; split; [reflexivity | repeat split; intros; congruence] ..].
    destruct (frame_empty h2) eqn:He;
      [exists None; split; [reflexivity | repeat split; intros; congruence]|].
    rewrite iloc_last_runs. destruct (rev (rows h2)) as [|l2 r2] eqn:Hr;
      [exists None; split; [reflexivity | repeat split; intros; congruence]|].
    rewrite of_option_runs. destruct (nth_error l2 2) as [v2 |] eqn:Hv;
      [|exists None; split; [reflexivity | repeat split; intros; congruence]].
    rewrite to_float_runs. destruct (py_float v2) as [x2 |] eqn:Hx;
      [exists (Some x2) | exists None];
      (split; [reflexivity | repeat split; intros; congruence]).
Qed.

End HkLookup.

(** * The A resolver *)

Section AResolver.

Context {cell : Type} `{Runtime cell}.
Variable w : world cell.

Lemma iloc_runs (f : frame cell) i (s : state cell) :
  iloc f i s = (match nth_error (rows f) i with Some r => Ok r | None => Raise IndexError end, s).
Proof. unfold iloc. apply of_option_runs. Qed.

(** The direct A lookup makes one call and answers under the code it
    was given. *)
Lemma a_lookup_runs code s :
  exists r,
    _get_a_stock_by_code w code s =
      (r, Spec.logged [Fetched (stock_individual_info_em code)] s) /\
    forall live, r = Ok live -> symbol live = code.
Proof.
  unfold _get_a_stock_by_code, bind, ret. rewrite ak_runs.
  destruct (answer w (stock_individual_info_em code)) as [[info |] | e];
    rewrite ?deref_runs; [|eexists; split; [reflexivity | congruence] ..].
  rewrite iloc_runs. destruct (nth_error (rows info) 0) as [r0 |];
    [|eexists; split; [reflexivity | congruence]].
  rewrite field_runs. destruct (col_index (columns info) L_value) as [i |] eqn:Hc;
    [|eexists; split; [reflexivity | congruence]].
  destruct (nth_error r0 i) as [v0 |]; [|eexists; split; [reflexivity | congruence]].
  rewrite iloc_runs. destruct (nth_error (rows info) 2) as [r2 |];
    [|eexists; split; [reflexivity | congruence]].
  rewrite field_runs, Hc. destruct (nth_error r2 i) as [v2 |];
    [|eexists; split; [reflexivity | congruence]].
  eexists. split; [reflexivity|]. intros live [= <-]. reflexivity.
Qed.

(** The cache stage of the A resolver, from the state [s0] in which it
    starts. *)
Lemma a_cache_stage query s0 es s1 :
  _load_a_cache w s0 = (Ok es, s1) ->
  try_except
    (bind (_load_a_cache w) (fun stock_list =>
       match filter (a_selects query) stock_list with
       | e :: _ =>
           try_except
             (bind (_get_a_stock_by_code w (e_code e)) (fun info =>
                ret (Some {| symbol := symbol info; name := py_str (e_name e);
                             current_price := current_price info |})))
             (fun _ => ret (Some {| symbol := e_code e; name := py_str (e_name e);
                                    current_price := None |}))
       | [] => ret None
       end))
    (fun _ => ret None) s0 =
  match find (Spec.code_or_name query) es with
  | None => (Ok None, s1)
  | Some e =>
      (Ok (Some {| symbol := e_code e; name := py_str (e_name e);
                   current_price :=
                     match fst (_get_a_stock_by_code w (e_code e) s1) with
                     | Ok live => current_price live
                     | Raise _ => None
                     end |}),
       Spec.logged [Fetched (stock_individual_info_em (e_code e))] s1)
  end.
Proof.
  intros Hload. unfold try_except at 1, bind at 1. rewrite Hload.
  change (Spec.code_or_name query) with (a_selects query).
  rewrite filter_find.
  destruct (filter (a_selects query) es) as [|e rest]; [reflexivity|].
  unfold try_except, bind, ret.
  destruct (a_lookup_runs (e_code e) s1) as (r & -> & Hsym). cbn [fst].
  destruct r as [live | e']; [|reflexivity].
  rewrite (Hsym live eq_refl). reflexivity.
Qed.

(** X7.  A query that is not made of digits is resolved from the
    cache alone: the first record, in cache order, whose code equals
    the query or whose name contains it.  The answer carries the cached
    code and the cached name, whatever name the live lookup reports,
    and the live price, or no price when the live lookup fails. *)
Theorem a_name_search_rule (query : pystr) (s s1 : state cell)
  (es : list (cache_entry cell)) :
  isdigit query = false ->
  _load_a_cache w (Spec.logged [Invoked (Resolver_A query)] s) = (Ok es, s1) ->
  match find (Spec.code_or_name query) es with
  | None => search_a_stock w query s = (Ok None, s1)
  | Some e =>
      exists i,
        fst (search_a_stock w query s) = Ok (Some i) /\
        symbol i = e_code e /\ name i = py_str (e_name e) /\
        (forall live, fst (_get_a_stock_by_code w (e_code e) s1) = Ok live ->
                      current_price i = current_price live) /\
        (forall e', fst (_get_a_stock_by_code w (e_code e) s1) = Raise e' ->
                    current_price i = None)
  end.
Proof.
  intros Hd Hload.
  assert (Hrun : search_a_stock w query s =
                 match find (Spec.code_or_name query) es with
                 | None => (Ok None, s1)
                 | Some e =>
                     (Ok (Some {| symbol := e_code e; name := py_str (e_name e);
                                  current_price :=
                                    match fst (_get_a_stock_by_code w (e_code e) s1) with
                                    | Ok live => current_price live
                                    | Raise _ => None
                                    end |}),
                      Spec.logged [Fetched (stock_individual_info_em (e_code e))] s1)
                 end).
  { rewrite <- (a_cache_stage query _ es s1 Hload).
    unfold search_a_stock. rewrite Hd. reflexivity. }
  rewrite Hrun. destruct (find (Spec.code_or_name query) es) as [e |]; [|reflexivity].
  eexists. split; [reflexivity|]. cbn [symbol name current_price].
  repeat split; intros x Hx; rewrite Hx; reflexivity.
Qed.

(** X8.  A query made of digits is answered by the direct lookup when
    that succeeds: one provider call, the query itself as symbol, no
    cache file read or written.  When the direct lookup fails the cache
    is searched after all, so that a record with that code is still
    found, under its cached name. *)
Theorem a_digit_query (query : pystr) (s : state cell) :
  isdigit query = true ->
  (forall live,
     fst (_get_a_stock_by_code w query (Spec.logged [Invoked (Resolver_A query)] s)) = Ok live ->
     search_a_stock w query s =
       (Ok (Some live),
        Spec.logged [Fetched (stock_individual_info_em query);
                     Invoked (Resolver_A query)] s) /\
     symbol live = query) /\
  (forall e es s1 entry,
     fst (_get_a_stock_by_code w query (Spec.logged [Invoked (Resolver_A query)] s)) = Raise e ->
     _load_a_cache w (Spec.logged [Fetched (stock_individual_info_em query);
                                   Invoked (Resolver_A query)] s) = (Ok es, s1) ->
     find (Spec.code_or_name query) es = Some entry ->
     exists i,
       fst (search_a_stock w query s) = Ok (Some i) /\
       symbol i = e_code entry /\ name i = py_str (e_name entry)).
Proof.
  intros Hd.
  destruct (a_lookup_runs query (Spec.logged [Invoked (Resolver_A query)] s))
    as (r & Hrun & Hsym).
  split.
  - intros live Hlive. rewrite Hrun in Hlive. cbn [fst] in Hlive. subst r.
    split; [|apply Hsym; reflexivity].
    unfold search_a_stock, bind at 1, log. rewrite Hd.
    unfold bind at 1, try_except at 1, bind at 1.
    change {| cache_a := cache_a s; cache_hk := cache_hk s;
              trace := Invoked (Resolver_A query) :: trace s |}
      with (Spec.logged [Invoked (Resolver_A query)] s).
    rewrite Hrun. reflexivity.
  - intros e es s1 entry Hfail Hload Hfind.
    rewrite Hrun in Hfail. cbn [fst] in Hfail. subst r.
    pose proof (a_cache_stage query _ es s1 Hload) as Hstage.
    rewrite Hfind in Hstage.
    assert (Hres : search_a_stock w query s =
              (Ok (Some {| symbol := e_code entry; name := py_str (e_name entry);
                           current_price :=
                             match fst (_get_a_stock_by_code w (e_code entry) s1) with
                             | Ok live => current_price live
                             | Raise _ => None
                             end |}),
               Spec.logged [Fetched (stock_individual_info_em (e_code entry))] s1));
      [|rewrite Hres; eexists; split; [reflexivity | split; reflexivity]].
    unfold search_a_stock, bind at 1, log. rewrite Hd.
    unfold bind at 1, try_except at 1, bind at 1.
    change {| cache_a := cache_a s; cache_hk := cache_hk s;
              trace := Invoked (Resolver_A query) :: trace s |}
      with (Spec.logged [Invoked (Resolver_A query)] s).
    rewrite Hrun. unfold ret at 1.
    change (Spec.logged [Fetched (stock_individual_info_em query)]
              (Spec.logged [Invoked (Resolver_A query)] s))
      with (Spec.logged [Fetched (stock_individual_info_em query);
                         Invoked (Resolver_A query)] s).
    rewrite Hstage. reflexivity.
Qed.

End AResolver.

(** * Cache files after a load *)

Section CacheReuse.

Context {cell : Type} `{Runtime cell}.
Variable w : world cell.

Lemma load_a_reuses (w' : world cell) (s : state cell) art :
  cache_a s = Some art -> (now w' - mtime art < 24 * 3600)%Z ->
  _load_a_cache w' s = (Ok (payload art), s).
Proof.
  intros Ha Hage. unfold _load_a_cache, bind, get_cache_a.
  rewrite (fresh_valid w' _ art Ha Hage). reflexivity.
Qed.

Lemma load_hk_reuses (w' : world cell) (s : state cell) art :
  cache_hk s = Some art -> (now w' - mtime art < 24 * 3600)%Z ->
  _load_hk_cache w' s = (Ok (payload art), s).
Proof.
  intros Ha Hage. unfold _load_hk_cache, bind, get_cache_hk.
  rewrite (fresh_valid w' _ art Ha Hage). reflexivity.
Qed.

Lemma fresh_some (a : option (artifact cell)) es :
  fresh w a = Some es ->
  exists art, a = Some art /\ payload art = es /\ (now w - mtime art < 24 * 3600)%Z.
Proof.
  unfold fresh, CACHE_TTL. destruct a as [art |]; [|discriminate].
  destruct (Z.ltb_spec (now w - mtime art) (24 * 3600)); [|discriminate].
  intros [= <-]. eauto.
Qed.

(** X9.  After a load that returned a list, the A cache file holds
    exactly that list and is less than 24 hours old, so every later
    load made before the file turns 24 hours old returns the same list
    without calling the provider, whatever the provider would answer.
    The same holds for the HK file whenever the list returned is not
    empty. *)
Theorem cache_serves_later_loads (s s1 : state cell) (es : list (cache_entry cell)) :
  (_load_a_cache w s = (Ok es, s1) ->
   exists art,
     cache_a s1 = Some art /\ payload art = es /\ (now w - mtime art < 24 * 3600)%Z /\
     forall w' : world cell,
       (now w' - mtime art < 24 * 3600)%Z -> _load_a_cache w' s1 = (Ok es, s1)) /\
  (_load_hk_cache w s = (Ok es, s1) -> es <> [] ->
   exists art,
     cache_hk s1 = Some art /\ payload art = es /\ (now w - mtime art < 24 * 3600)%Z /\
     forall w' : world cell,
       (now w' - mtime art < 24 * 3600)%Z -> _load_hk_cache w' s1 = (Ok es, s1)).
Proof.
  split.
  - intros Hrun. revert Hrun. unfold _load_a_cache at 1. unfold bind, get_cache_a.
    destruct (fresh w (cache_a s)) as [es0 |] eqn:Hf.
    + unfold ret. intros [= <- <-].
      destruct (fresh_some _ _ Hf) as (art & Ha & Hp & Hage).
      exists art. repeat split; try assumption.
      intros w' Hage'. rewrite <- Hp. apply load_a_reuses; assumption.
    + rewrite ak_runs.
      destruct (answer w stock_zh_a_spot_em) as [[f |] | e]; rewrite ?deref_runs;
        try discriminate.
      unfold lift. destruct (project f) as [es0 | e]; [|discriminate].
      unfold set_cache_a, ret. intros [= <- <-].
      exists {| mtime := now w; payload := es0 |}. cbn [cache_a mtime payload].
      repeat split; [lia|].
      intros w' Hage'. apply (load_a_reuses w' _ {| mtime := now w; payload := es0 |});
        [reflexivity | exact Hage'].
  - intros Hrun. revert Hrun. unfold _load_hk_cache at 1. unfold bind, get_cache_hk.
    destruct (fresh w (cache_hk s)) as [es0 |] eqn:Hf.
    + unfold ret. intros [= <- <-] _.
      destruct (fresh_some _ _ Hf) as (art & Ha & Hp & Hage).
      exists art. repeat split; try assumption.
      intros w' Hage'. rewrite <- Hp. apply load_hk_reuses; assumption.
    + unfold refetch_hk, try_except, bind, ret. rewrite ak_runs.
      assert (Hsaved : forall (s0 : state cell) es0,
                set_cache_hk {| mtime := now w; payload := es0 |} s0 =
                (Ok tt, {| cache_a := cache_a s0;
                           cache_hk := Some {| mtime := now w; payload := es0 |};
                           trace := trace s0 |})) by reflexivity.
      assert (Hdone : forall (es' : list (cache_entry cell)) (s' : state cell),
                cache_hk s' = Some {| mtime := now w; payload := es' |} ->
                exists art,
                  cache_hk s' = Some art /\ payload art = es' /\
                  (now w - mtime art < 24 * 3600)%Z /\
                  forall w' : world cell,
                    (now w' - mtime art < 24 * 3600)%Z ->
                    _load_hk_cache w' s' = (Ok es', s')).
      { intros es' s' Hc. exists {| mtime := now w; payload := es' |}.
        cbn [mtime payload]. repeat split; [exact Hc | lia |].
        intros w' Hage'.
        apply (load_hk_reuses w' _ {| mtime := now w; payload := es' |});
          [exact Hc | exact Hage']. }
      destruct (answer w stock_hk_spot_em) as [[f1 |] | e1]; cbn [fst snd];
        [destruct (negb (frame_empty f1) && has_label f1 L_code);
         [unfold lift; destruct (project f1) as [es1 | e1];
          [rewrite Hsaved; intros Heq _; injection Heq as <- <-;
           apply Hdone; reflexivity|]|]| |];
        (rewrite ak_runs;
         destruct (answer w stock_hk_main_board_spot_em) as [[f2 |] | e2]; cbn [fst snd];
         [destruct (negb (frame_empty f2) && has_label f2 L_code);
          [unfold lift; destruct (project f2) as [es2 | e2];
           [rewrite Hsaved; intros Heq _; injection Heq as <- <-;
            apply Hdone; reflexivity|]|]| |];
         intros [= <- _] Hne; contradiction).
Qed.

(** X10.  The symbol list made from a snapshot keeps every row, in the
    provider's order: entry by entry, the code is the text of the row's
    code cell and the name is the row's name cell. *)
Theorem project_keeps_rows (f : frame cell) (es : list (cache_entry cell)) :
  project f = Ok es ->
  exists ic inm,
    col_index (columns f) L_code = Some ic /\
    col_index (columns f) L_name = Some inm /\
    Forall2 (fun r e =>
               exists c n, nth_error r ic = Some c /\ nth_error r inm = Some n /\
                           e_code e = py_str c /\ e_name e = n)
            (rows f) es.
Proof.
  unfold project.
  destruct (col_index (columns f) L_code) as [ic |]; [|discriminate].
  destruct (col_index (columns f) L_name) as [inm |]; [|discriminate].
  intros Hp. exists ic, inm. split; [reflexivity|]. split; [reflexivity|].
  revert es Hp. induction (rows f) as [|r rs IH]; intros es; simpl.
  - intros [= <-]. constructor.
  - destruct (nth_error r ic) as [c |] eqn:Hc; [|discriminate].
    destruct (nth_error r inm) as [n |] eqn:Hn; [|discriminate].
    destruct (project_rows ic inm rs) as [es' | e]; [|discriminate].
    intros [= <-]. constructor; [|apply IH; reflexivity].
    exists c, n. repeat split; assumption.
Qed.

End CacheReuse.

(** * Dividend outcomes *)

Section Dividends.

Context {cell : Type} `{Runtime cell}.
Variable w : world cell.

Lemma ensures_ret {A} (P : A -> Prop) (a : A) : P a -> Effects.ensures P (ret (cell := cell) a).
Proof. intros Hp s a' [= <-]. exact Hp. Qed.

Lemma ensures_bind {A B} (P : B -> Prop) (m : M cell A) (k : A -> M cell B) :
  (forall a, Effects.ensures P (k a)) -> Effects.ensures P (bind m k).
Proof.
  intros Hk s b. unfold bind. destruct (m s) as [[a | e] s']; [|discriminate].
  apply Hk.
Qed.

Lemma ensures_try {A} (P : A -> Prop) (m : M cell A) (h : exn -> M cell A) :
  Effects.ensures P m -> (forall e, Effects.ensures P (h e)) ->
  Effects.ensures P (try_except m h).
Proof.
  intros Hm Hh s a. unfold try_except. pose proof (Hm s) as Hms.
  destruct (m s) as [[a' | e] s']; [apply Hms | apply Hh].
Qed.

Lemma round6_nonneg x : (0 <= x)%Q -> (0 <= round6 x)%Q.
Proof.
  intros Hx. apply Qle_trans with (0 # 1000000)%Q; [unfold Qle; simpl; lia|].
  apply round6_ge. unfold Qle in *. simpl in *. lia.
Qed.

Lemma firstn_dropna_length {A} (l : list (option A)) :
  (List.length (firstn 2 (dropna l)) <= 2)%nat.
Proof. rewrite length_firstn. lia. Qed.

Lemma a_dates_length (f : frame cell) : (List.length (a_dates f) <= 2)%nat.
Proof.
  unfold a_dates. destruct (pay_date_col (columns f)); [|simpl; lia].
  rewrite length_map, length_rev. apply tail2_length.
Qed.

Lemma a_aggregate_shaped (f : frame cell) : Effects.well_shaped (a_aggregate w f).
Proof.
  unfold a_aggregate, Effects.well_shaped.
  pose proof (a_dates_length f) as Hd.
  destruct (filter _ (rows f)) as [|r rs] eqn:Hrec.
  - destruct (Qpos (Qsum (map per10 (firstn 2 (rows f))))) eqn:Hp.
    + repeat split; [|exact Hd]. apply round6_nonneg.
      apply Qpos_lt in Hp. apply Qlt_le_weak.
      rewrite <- Qpos_lt, Qpos_tenth, Qpos_lt. exact Hp.
    + split; [discriminate | exact Hd].
  - destruct (Qpos (Qsum (map per10 (r :: rs)))) eqn:Hp.
    + repeat split; [|exact Hd]. apply round6_nonneg.
      apply Qpos_lt in Hp. apply Qlt_le_weak.
      rewrite <- Qpos_lt, Qpos_tenth, Qpos_lt. exact Hp.
    + destruct (Qpos (Qsum (map per10 (firstn 2 (rows f))))) eqn:Hp2.
      * repeat split; [|exact Hd]. apply round6_nonneg.
        apply Qpos_lt in Hp2. apply Qlt_le_weak.
        rewrite <- Qpos_lt, Qpos_tenth, Qpos_lt. exact Hp2.
      * split; [discriminate | exact Hd].
Qed.

Lemma hk_aggregate_shaped (rs : list (list cell * Q)) :
  Effects.well_shaped (hk_aggregate w rs).
Proof.
  unfold hk_aggregate, Effects.well_shaped.
  assert (Hd : forall l : list (option Z),
             (List.length (map strftime_ymd (firstn 2 (dropna l))) <= 2)%nat).
  { intros l. rewrite length_map. apply firstn_dropna_length. }
  destruct (filter (fun rx => in_window w (date_at 0 (fst rx))) rs) as [|r rs'].
  - destruct (Qpos (Qsum (map snd (firstn 2 rs)))) eqn:Hp.
    + repeat split; [|apply Hd]. apply round6_nonneg, Qlt_le_weak, Qpos_lt, Hp.
    + split; [discriminate | apply Hd].
  - destruct (Qpos (Qsum (map snd (r :: rs')))) eqn:Hp.
    + repeat split; [|apply Hd]. apply round6_nonneg, Qlt_le_weak, Qpos_lt, Hp.
    + destruct (Qpos (Qsum (map snd (firstn 2 rs)))) eqn:Hp2.
      * repeat split; [|apply Hd]. apply round6_nonneg, Qlt_le_weak, Qpos_lt, Hp2.
      * split; [discriminate | apply Hd].
Qed.

Lemma failure_shaped (msg : pystr) : Effects.well_shaped (None, [], Some msg).
Proof. split; [discriminate | simpl; lia]. Qed.

Lemma a_dividend_shaped sym : Effects.ensures Effects.well_shaped (get_a_dividend w sym).
Proof.
  unfold get_a_dividend. apply ensures_bind. intros _.
  apply ensures_try; [|intros e; apply ensures_ret, failure_shaped].
  apply ensures_bind. intros [f |]; [|apply ensures_ret, failure_shaped].
  destruct (frame_empty f); [apply ensures_ret, failure_shaped|].
  destruct (Nat.ltb _ 5); apply ensures_ret; [apply failure_shaped | apply a_aggregate_shaped].
Qed.

Lemma hk_dividend_shaped sym : Effects.ensures Effects.well_shaped (get_hk_dividend w sym).
Proof.
  unfold get_hk_dividend. apply ensures_bind. intros _.
  apply ensures_try; [|intros e; apply ensures_ret, failure_shaped].
  cbv zeta. apply ensures_bind. intros [f |]; [|apply ensures_ret, failure_shaped].
  destruct (frame_empty f); [apply ensures_ret, failure_shaped|].
  repeat (apply ensures_bind; intros ?).
  apply ensures_ret, hk_aggregate_shaped.
Qed.

(** X11.  Both dividend lookups always return, and what they return is
    either an amount that is not negative together with no error, or no
    amount together with an error text; in both cases with at most two
    dates. *)
Theorem dividend_outcome_shape (sym : pystr) (s : state cell) :
  (exists o, fst (get_a_dividend w sym s) = Ok o /\ Effects.well_shaped o) /\
  (exists o, fst (get_hk_dividend w sym s) = Ok o /\ Effects.well_shaped o).
Proof.
  split.
  - destruct (total_a_dividend w sym s) as [o Ho]. exists o. split; [exact Ho|].
    exact (a_dividend_shaped sym s o Ho).
  - destruct (total_hk_dividend w sym s) as [o Ho]. exists o. split; [exact Ho|].
    exact (hk_dividend_shaped sym s o Ho).
Qed.

(** ** Missing and malformed histories *)

(** X12.  An A-share history that cannot be used is reported, never
    raised: an exception of the provider gives its text as the error, no
    table or an empty one gives the no-record error, and a table of fewer
    than five columns gives the column-count error that lists the
    labels; each with no amount and no dates. *)
Theorem a_dividend_unusable_history (sym : pystr) (s : state cell) :
  (forall e, answer w (stock_dividend_cninfo sym) = Raise e ->
             fst (get_a_dividend w sym s) = Ok (None, [], Some (str_exn e))) /\
  (answer w (stock_dividend_cninfo sym) = Ok None ->
   fst (get_a_dividend w sym s) = Ok (None, [], Some (u8 "无分红记录"))) /\
  (forall f, answer w (stock_dividend_cninfo sym) = Ok (Some f) ->
             frame_empty f = true ->
             fst (get_a_dividend w sym s) = Ok (None, [], Some (u8 "无分红记录"))) /\
  (forall f, answer w (stock_dividend_cninfo sym) = Ok (Some f) ->
             frame_empty f = false -> (List.length (columns f) < 5)%nat ->
             fst (get_a_dividend w sym s) =
             Ok (None, [], Some (u8 "数据列数异常: " ++ repr_labels (columns f)))).
Proof.
  unfold get_a_dividend, try_except, bind, log, ret. cbn [fst snd].
  repeat split.
  - intros e He. rewrite ak_runs, He. reflexivity.
  - intros Hn. rewrite ak_runs, Hn. reflexivity.
  - intros f Hf He. rewrite ak_runs, Hf, He. reflexivity.
  - intros f Hf He Hc. rewrite ak_runs, Hf, He.
    destruct (Nat.ltb_spec (List.length (columns f)) 5); [reflexivity | lia].
Qed.

Lemma parse_rows_pure (rs : list (list cell)) :
  exists r, forall s : state cell, parse_rows rs s = (r, s).
Proof.
  induction rs as [|r rs [r0 IH]]; [exists (Ok []); reflexivity|].
  cbn [parse_rows]. unfold bind, of_option, lift, ret.
  destruct (cell_at r 2) as [c |]; [|eexists; intros s; reflexivity].
  destruct (_parse_hkd (py_str c)) as [x | e]; [|eexists; intros s; reflexivity].
  destruct r0 as [xs | e]; eexists; intros s; rewrite IH; reflexivity.
Qed.

Lemma parse_rows_stops (pre post : list (list cell)) r c e (s : state cell) :
  Forall (fun r' => exists c' q, cell_at r' 2 = Some c' /\ _parse_hkd (py_str c') = Ok q) pre ->
  cell_at r 2 = Some c -> _parse_hkd (py_str c) = Raise e ->
  parse_rows (pre ++ r :: post) s = (Raise e, s).
Proof.
  intros Hpre Hc He. induction Hpre as [|r' pre' (c' & q & Hc' & Hq) _ IH].
  - cbn [app parse_rows]. unfold bind, of_option, lift, ret. rewrite Hc, He. reflexivity.
  - cbn [app parse_rows]. unfold bind, of_option, lift, ret. rewrite Hc', Hq.
    fold (pre' ++ r :: post). rewrite IH. reflexivity.
Qed.


Lemma hk_dividend_wf sym (f : frame cell) (s : state cell) :
  answer w (stock_hk_dividend_payout_em (zfill5 sym)) = Ok (Some f) ->
  frame_empty f = false -> (5 <= List.length (columns f))%nat ->
  get_hk_dividend w sym s =
  (let s' := Spec.logged [Fetched (stock_hk_dividend_payout_em (zfill5 sym));
                          Invoked (Dividend_HK sym)] s in
   match fst (parse_rows (rows f) s') with
   | Ok rs => (Ok (hk_aggregate w rs), s')
   | Raise e => (Ok (None, [], Some (u8 "港股分红获取失败: " ++ str_exn e)), s')
   end).
Proof.
  intros Ha Hne Hc. unfold get_hk_dividend, try_except, bind, log, ret. cbn [fst snd].
  rewrite ak_runs, Ha, Hne. cbn [fst snd].
  destruct (columns f) as [|c0 [|c1 [|c2 [|c3 [|c4 cs]]]]]; simpl in Hc; try lia.
  cbn [nth_error]. rewrite !of_option_runs.
  destruct (parse_rows_pure (rows f)) as [r Hr]. rewrite !Hr. cbn [fst].
  destruct r; reflexivity.
Qed.

(** X13.  An HK payout history that cannot be used is reported, never
    raised, under the prefix of the HK lookup: an exception of the
    provider, a table of fewer than five columns, and a row whose payout
    text has a number [float] rejects (the first such row decides, the
    rows before it having parsed) all give no amount, no dates and the
    prefixed text of the exception; no table or an empty one gives the
    no-record error. *)
Theorem hk_dividend_unusable_history (sym : pystr) (s : state cell) :
  (forall e, answer w (stock_hk_dividend_payout_em (zfill5 sym)) = Raise e ->
             fst (get_hk_dividend w sym s) =
             Ok (None, [], Some (u8 "港股分红获取失败: " ++ str_exn e))) /\
  (answer w (stock_hk_dividend_payout_em (zfill5 sym)) = Ok None ->
   fst (get_hk_dividend w sym s) = Ok (None, [], Some (u8 "无港股分红记录"))) /\
  (forall f, answer w (stock_hk_dividend_payout_em (zfill5 sym)) = Ok (Some f) ->
             frame_empty f = true ->
             fst (get_hk_dividend w sym s) = Ok (None, [], Some (u8 "无港股分红记录"))) /\
  (forall f, answer w (stock_hk_dividend_payout_em (zfill5 sym)) = Ok (Some f) ->
             frame_empty f = false -> (List.length (columns f) < 5)%nat ->
             fst (get_hk_dividend w sym s) =
             Ok (None, [], Some (u8 "港股分红获取失败: " ++ str_exn IndexError))) /\
  (forall f pre r post c e,
      answer w (stock_hk_dividend_payout_em (zfill5 sym)) = Ok (Some f) ->
      frame_empty f = false -> (5 <= List.length (columns f))%nat ->
      rows f = pre ++ r :: post ->
      Forall (fun r' => exists c' q,
                  cell_at r' 2 = Some c' /\ _parse_hkd (py_str c') = Ok q) pre ->
      cell_at r 2 = Some c -> _parse_hkd (py_str c) = Raise e ->
      fst (get_hk_dividend w sym s) =
      Ok (None, [], Some (u8 "港股分红获取失败: " ++ str_exn e))).
Proof.
  repeat split.
  - intros e He. unfold get_hk_dividend, try_except, bind, log, ret. cbn [fst snd].
    rewrite ak_runs, He. reflexivity.
  - intros Hn. unfold get_hk_dividend, try_except, bind, log, ret. cbn [fst snd].
    rewrite ak_runs, Hn. reflexivity.
  - intros f Hf He. unfold get_hk_dividend, try_except, bind, log, ret. cbn [fst snd].
    rewrite ak_runs, Hf, He. reflexivity.
  - intros f Hf He Hc. unfold get_hk_dividend, try_except, bind, log, ret. cbn [fst snd].
    rewrite ak_runs, Hf, He. cbn [fst snd].
    destruct (columns f) as [|c0 [|c1 [|c2 [|c3 [|c4 cs]]]]]; simpl in Hc; try lia;
      cbn [nth_error]; rewrite ?of_option_runs; reflexivity.
  - intros f pre r post c e Hf Hne Hc Hrows Hpre Hcell He.
    rewrite (hk_dividend_wf sym f s Hf Hne Hc). cbv zeta.
    rewrite Hrows, (parse_rows_stops pre post r c e _ Hpre Hcell He). reflexivity.
Qed.


(** X15.  The HK dividend lookup depends on its symbol only through the
    symbol padded to five characters, and on nothing of the state: two
    symbols with the same padding give the same outcome from any two
    states. *)
Theorem hk_dividend_by_padded_symbol (sym sym' : pystr) (s s' : state cell) :
  zfill5 sym = zfill5 sym' ->
  fst (get_hk_dividend w sym s) = fst (get_hk_dividend w sym' s').
Proof.
  intros Hz. unfold get_hk_dividend, try_except, bind, log, ret. cbn [fst snd].
  rewrite !ak_runs, Hz.
  destruct (answer w (stock_hk_dividend_payout_em (zfill5 sym'))) as [[f |] | e];
    cbn [fst snd]; try reflexivity.
  destruct (frame_empty f); [reflexivity|].
  rewrite !of_option_runs.
  destruct (nth_error (columns f) 0); [|reflexivity].
  destruct (nth_error (columns f) 2); [|reflexivity].
  destruct (nth_error (columns f) 4); [|reflexivity].
  destruct (parse_rows_pure (rows f)) as [r Hr]. rewrite !Hr.
  destruct r; reflexivity.
Qed.

End Dividends.

(** * The search route as a whole *)

Section SearchRoute.

Context {cell : Type} `{Runtime cell}.
Variable w : world cell.













End SearchRoute.

(** * What the payout parser can yield *)

Lemma take_num_class (s : pystr) : forallb num_char (take_num s) = true.
Proof.
  induction s as [|c s IH]; simpl; [reflexivity|].
  destruct (num_char c) eqn:E; simpl; [rewrite E; exact IH | reflexivity].
Qed.

Lemma match_here_group head (s g : pystr) :
  match_here head s = Some g -> g <> [] /\ forallb num_char g = true.
Proof.
  unfold match_here. destruct (head s) as [s' |]; [|discriminate].
  pose proof (take_num_class s') as Hc.
  destruct (take_num s') as [|c g']; [discriminate|].
  intros [= <-]. split; [discriminate | exact Hc].
Qed.

Lemma re_search_group head (s g : pystr) :
  re_search head s = Some g -> g <> [] /\ forallb num_char g = true.
Proof.
  induction s as [|c s IH]; simpl.
  - destruct (match_here head []) as [g' |] eqn:E; [|discriminate].
    intros [= <-]. apply (match_here_group head [] g' E).
  - destruct (match_here head (c :: s)) as [g' |] eqn:E.
    + intros [= <-]. apply (match_here_group head _ g' E).
    + exact IH.
Qed.

Lemma Qred_nonneg (x : Q) : (0 <= x)%Q -> (0 <= Qred x)%Q.
Proof. intros Hx. rewrite Qred_correct. exact Hx. Qed.

Lemma float_of_literal_nonneg (g : pystr) (q : Q) :
  float_of_literal g = Some q -> (0 <= q)%Q.
Proof.
  unfold float_of_literal. destruct (split_dot g) as [ip rest].
  destruct (ip ++ _) as [|c ds]; [discriminate|].
  destruct (digits_value 0 (c :: ds)) as [n |]; [|discriminate].
  intros Heq.
  match type of Heq with
  | Some (Qred ?x) = Some _ =>
      assert (Hq : Qred x = q) by (injection Heq as Heq'; exact Heq')
  end.
  rewrite <- Hq. apply Qred_nonneg. unfold Qle. simpl. lia.
Qed.

Lemma py_float_str_outcomes (g : pystr) :
  g <> [] -> forallb num_char g = true ->
  match py_float_str g with
  | Ok q => (0 <= q)%Q
  | Raise e => e = ValueError g /\ float_of_literal g = None
  end.
Proof.
  intros _ _. unfold py_float_str. destruct (float_of_literal g) as [q |] eqn:E.
  - apply (float_of_literal_nonneg g q E).
  - split; reflexivity.
Qed.

(** X19.  The payout parser yields an amount that is not negative, or
    raises [ValueError] on the run it captured: a run of digits and full
    stops, not empty, that does not read as a number.  It raises nothing
    else. *)
Theorem parse_hkd_outcomes (text : pystr) :
  match _parse_hkd text with
  | Ok q => (0 <= q)%Q
  | Raise e =>
      exists g, e = ValueError g /\ g <> [] /\ forallb num_char g = true /\
                float_of_literal g = None
  end.
Proof.
  unfold _parse_hkd.
  destruct (re_search hkd_head text) as [g |] eqn:E1.
  - destruct (re_search_group _ _ _ E1) as [Hne Hc].
    pose proof (py_float_str_outcomes g Hne Hc) as Ho.
    destruct (py_float_str g) as [q | e]; [exact Ho|].
    destruct Ho as [-> Hf]. exists g. repeat split; assumption.
  - destruct (re_search paixi_head text) as [g |] eqn:E2.
    + destruct (re_search_group _ _ _ E2) as [Hne Hc].
      pose proof (py_float_str_outcomes g Hne Hc) as Ho.
      destruct (py_float_str g) as [q | e]; [exact Ho|].
      destruct Ho as [-> Hf]. exists g. repeat split; assumption.
    + unfold Qle. simpl. lia.
Qed.

(** * The A resolver without its cache *)

Section ANoCache.

Context {cell : Type} `{Runtime cell}.
Variable w : world cell.

(** X20.  With no fresh A cache file and a snapshot that cannot be used
    (the call raises, returns nothing, or its table lacks the code or
    the name column), a query that is not made of digits finds nothing:
    the resolver makes the one snapshot call, returns [None] and leaves
    both cache files as they were. *)
Theorem a_search_without_cache (query : pystr) (s : state cell) :
  isdigit query = false ->
  fresh w (cache_a s) = None ->
  match answer w stock_zh_a_spot_em with
  | Ok (Some f) => exists e, project f = Raise e
  | _ => True
  end ->
  search_a_stock w query s =
  (Ok None, Spec.logged [Fetched stock_zh_a_spot_em; Invoked (Resolver_A query)] s).
Proof.
  intros Hd Hf Hbad.
  unfold search_a_stock, try_except, bind, log, ret. rewrite Hd.
  unfold _load_a_cache, bind, get_cache_a. cbn [cache_a fst snd]. rewrite Hf.
  rewrite ak_runs.
  destruct (answer w stock_zh_a_spot_em) as [[f |] | e]; rewrite ?deref_runs;
    try reflexivity.
  destruct Hbad as [e He]. unfold lift. rewrite He. reflexivity.
Qed.

End ANoCache.

(** * Strings *)

Lemma pystr_eqb_eq (s t : pystr) : PyStr.eqb s t = true <-> s = t.
Proof.
  revert t. induction s as [|c s IH]; intros [|d t]; simpl; split; try congruence.
  - intros Hb. apply andb_true_iff in Hb as [Hc Hs].
    apply N.eqb_eq in Hc. apply IH in Hs. congruence.
  - intros [= -> ->]. rewrite N.eqb_refl. apply IH. reflexivity.
Qed.

Lemma pystr_eqb_refl (s : pystr) : PyStr.eqb s s = true.
Proof. apply pystr_eqb_eq. reflexivity. Qed.

Lemma pystr_eqb_neq (s t : pystr) : s <> t -> PyStr.eqb s t = false.
Proof.
  intros Hn. destruct (PyStr.eqb s t) eqn:E; [|reflexivity].
  apply pystr_eqb_eq in E. contradiction.
Qed.

(** * The watchlist *)

Import Watchlist.

Lemma dict_get_set_same k v d : dict_get k (dict_set k v d) = Some v.
Proof.
  induction d as [|[k' v'] d IH]; simpl.
  - rewrite pystr_eqb_refl. reflexivity.
  - destruct (PyStr.eqb k' k) eqn:E; simpl; rewrite E; [reflexivity | exact IH].
Qed.

Lemma dict_get_set_other k k' v d :
  k <> k' -> dict_get k' (dict_set k v d) = dict_get k' d.
Proof.
  intros Hn. induction d as [|[k0 v0] d IH]; simpl.
  - rewrite (pystr_eqb_neq _ _ Hn). reflexivity.
  - destruct (PyStr.eqb k0 k) eqn:E; simpl.
    + apply pystr_eqb_eq in E. subst k0. rewrite (pystr_eqb_neq _ _ Hn). reflexivity.
    + destruct (PyStr.eqb k0 k'); [reflexivity | exact IH].
Qed.

Lemma dict_set_same_value k v d : dict_get k d = Some v -> dict_set k v d = d.
Proof.
  induction d as [|[k0 v0] d IH]; simpl; [discriminate|].
  destruct (PyStr.eqb k0 k); [intros [= ->]; reflexivity|].
  intros Hg. rewrite (IH Hg). reflexivity.
Qed.

Lemma dict_get_update k d u :
  dict_get k (dict_update d u) =
  match dict_get k (rev u) with Some v => Some v | None => dict_get k d end.
Proof.
  unfold dict_update. revert d. induction u as [|[k0 v0] u IH]; intros d; simpl.
  - reflexivity.
  - rewrite IH. clear IH.
    assert (Happ : forall l, dict_get k (l ++ [(k0, v0)]) =
                     match dict_get k l with
                     | Some v => Some v
                     | None => if PyStr.eqb k0 k then Some v0 else None
                     end).
    { induction l as [|[k1 v1] l IHl]; simpl; [reflexivity|].
      destruct (PyStr.eqb k1 k); [reflexivity | exact IHl]. }
    rewrite Happ. destruct (dict_get k (rev u)); [reflexivity|].
    destruct (PyStr.eqb k0 k) eqn:E.
    + apply pystr_eqb_eq in E. subst k0. apply dict_get_set_same.
    + apply dict_get_set_other. intros ->. rewrite pystr_eqb_refl in E. discriminate.
Qed.

Lemma stocks_of_shape f l :
  stocks_of f = Some l ->
  exists d, load_data f = JObj d /\ dict_get K_stocks d = Some (JArr l).
Proof.
  unfold stocks_of, get_stocks, subscript.
  destruct (load_data f) as [| | | | |d]; try discriminate.
  destruct (dict_get K_stocks d) as [[| | | |l'|]|] eqn:E; try discriminate.
  intros [= ->]. eauto.
Qed.

Lemma stocks_of_saved d v l :
  v = JArr l -> stocks_of (save_data (with_stocks (JObj d) v)) = Some l.
Proof.
  intros ->. unfold stocks_of, get_stocks, save_data, with_stocks, load_data, subscript.
  rewrite dict_get_set_same. reflexivity.
Qed.


Lemma readable_obj s : readable s -> exists d v, s = JObj d /\ dict_get K_id d = Some v.
Proof.
  intros [v Hv]. unfold subscript in Hv. destruct s as [| | | | |d]; try discriminate.
  destruct (dict_get K_id d) as [v'|] eqn:E; [|discriminate]. eauto.
Qed.

Lemma keep_others_filter sid l :
  Forall readable l ->
  keep_others sid l = Ok (filter (fun s => negb (has_id sid s)) l).
Proof.
  induction 1 as [|s l [v Hv] _ IH]; simpl; [reflexivity|].
  unfold has_id. rewrite Hv, IH. destruct (is_str v sid); reflexivity.
Qed.

Lemma update_first_no_match iso t sid u l :
  Forall (fun s => readable s /\ has_id sid s = false) l ->
  update_first iso t sid u l = Ok l.
Proof.
  induction 1 as [|s l [[v Hv] Hn] _ IH]; simpl; [reflexivity|].
  unfold has_id in Hn. rewrite Hv in *. rewrite Hn, IH. reflexivity.
Qed.

Lemma update_first_match iso t sid u pre d post :
  Forall (fun s => readable s /\ has_id sid s = false) pre ->
  has_id sid (JObj d) = true ->
  update_first iso t sid u (pre ++ JObj d :: post) =
  Ok (pre ++ JObj (dict_set K_updated_at (JStr (iso t)) (dict_update d u)) :: post).
Proof.
  intros Hpre Hd. induction Hpre as [|s l [[v Hv] Hn] _ IH]; simpl.
  - unfold has_id in Hd. simpl in Hd.
    destruct (dict_get K_id d) as [v|]; [|discriminate]. rewrite Hd. reflexivity.
  - unfold has_id in Hn. rewrite Hv in *. rewrite Hn, IH. reflexivity.
Qed.

Section Routes.

Variable isoformat : Z -> pystr.

Lemma add_stock_runs (t_id t_created : Z) (body : dict) (f : disk) (l : list json) :
  stocks_of f = Some l ->
  exists d,
    load_data f = JObj d /\
    add_stock isoformat t_id t_created body f =
    (Ok (JObj (stamped isoformat t_id t_created body)),
     save_data (with_stocks (JObj d)
                  (JArr (l ++ [JObj (stamped isoformat t_id t_created body)])))).
Proof.
  intros Hl. destruct (stocks_of_shape f l Hl) as (d & Hd & Hs).
  exists d. split; [exact Hd|].
  unfold add_stock, subscript. rewrite Hd, Hs. reflexivity.
Qed.

Lemma delete_stock_runs (stock_id : pystr) (f : disk) (l : list json) :
  stocks_of f = Some l ->
  Forall readable l ->
  exists d,
    load_data f = JObj d /\
    delete_stock stock_id f =
    (Ok tt, save_data (with_stocks (JObj d)
                         (JArr (filter (fun s => negb (has_id stock_id s)) l)))).
Proof.
  intros Hl Hr. destruct (stocks_of_shape f l Hl) as (d & Hd & Hs).
  exists d. split; [exact Hd|].
  unfold delete_stock, subscript, iterate. rewrite Hd, Hs.
  rewrite (keep_others_filter _ _ Hr). reflexivity.
Qed.

Lemma stamped_id (t_id t_created : Z) (body : dict) :
  dict_get K_id (stamped isoformat t_id t_created body) = Some (JStr (new_id t_id)).
Proof.
  unfold stamped. rewrite dict_get_set_other by discriminate. apply dict_get_set_same.
Qed.

(** X21.  Posting to a watchlist document appends exactly one entry and
    answers with it; the entry carries the server's id and creation
    time, whatever the client sent under those keys, and every other
    key of the body as sent; the other keys of the document are kept. *)
Theorem add_stock_appends (t_id t_created : Z) (body : dict) (f : disk) (l : list json) :
  stocks_of f = Some l ->
  exists stock,
    fst (add_stock isoformat t_id t_created body f) = Ok (JObj stock) /\
    stocks_of (snd (add_stock isoformat t_id t_created body f)) = Some (l ++ [JObj stock]) /\
    dict_get K_id stock = Some (JStr (new_id t_id)) /\
    dict_get K_created_at stock = Some (JStr (isoformat t_created)) /\
    (forall k, k <> K_id -> k <> K_created_at -> dict_get k stock = dict_get k body) /\
    (forall k, k <> K_stocks ->
       subscript (load_data (snd (add_stock isoformat t_id t_created body f))) k =
       subscript (load_data f) k).
Proof.
  intros Hl. destruct (add_stock_runs t_id t_created body f l Hl) as (d & Hd & ->).
  exists (stamped isoformat t_id t_created body). cbn [fst snd].
  split; [reflexivity|]. split; [apply stocks_of_saved; reflexivity|].
  split; [apply stamped_id|]. unfold stamped.
  split; [apply dict_get_set_same|]. split.
  - intros k Hk1 Hk2.
    rewrite dict_get_set_other by congruence.
    apply dict_get_set_other. congruence.
  - intros k Hk. rewrite Hd. unfold save_data, with_stocks, load_data, subscript.
    rewrite dict_get_set_other by congruence. reflexivity.
Qed.

(** X22.  Deleting by id removes every entry with that id and keeps the
    others, in order; deleting the same id again changes nothing. *)
Theorem delete_stock_removes (stock_id : pystr) (f : disk) (l : list json) :
  stocks_of f = Some l ->
  Forall readable l ->
  fst (delete_stock stock_id f) = Ok tt /\
  stocks_of (snd (delete_stock stock_id f)) =
    Some (filter (fun s => negb (has_id stock_id s)) l) /\
  delete_stock stock_id (snd (delete_stock stock_id f)) =
    (Ok tt, snd (delete_stock stock_id f)).
Proof.
  intros Hl Hr. destruct (delete_stock_runs stock_id f l Hl Hr) as (d & Hd & Hrun).
  rewrite Hrun. cbn [fst snd]. split; [reflexivity|].
  split; [apply stocks_of_saved; reflexivity|].
  unfold delete_stock, save_data, with_stocks, load_data, subscript, iterate.
  rewrite dict_get_set_same.
  assert (Hr' : Forall readable (filter (fun s => negb (has_id stock_id s)) l)).
  { rewrite Forall_forall in *. intros s Hin. apply filter_In in Hin. apply Hr, Hin. }
  rewrite (keep_others_filter _ _ Hr').
  assert (Hff : filter (fun s => negb (has_id stock_id s))
                  (filter (fun s => negb (has_id stock_id s)) l)
                = filter (fun s => negb (has_id stock_id s)) l).
  { clear. induction l as [|s l IH]; simpl; [reflexivity|].
    destruct (negb (has_id stock_id s)) eqn:E; simpl; [rewrite E, IH|]; auto. }
  rewrite Hff.
  rewrite (dict_set_same_value K_stocks _ (dict_set K_stocks _ d))
    by apply dict_get_set_same.
  reflexivity.
Qed.

Lemma updated_fields (t : Z) (updates d : dict) (k : pystr) :
  dict_get k (dict_set K_updated_at (JStr (isoformat t)) (dict_update d updates)) =
  if PyStr.eqb K_updated_at k then Some (JStr (isoformat t))
  else match dict_get k (rev updates) with
       | Some v => Some v
       | None => dict_get k d
       end.
Proof.
  destruct (PyStr.eqb K_updated_at k) eqn:E.
  - apply pystr_eqb_eq in E. subst k. apply dict_get_set_same.
  - rewrite dict_get_set_other.
    + apply dict_get_update.
    + intros Heq. rewrite Heq, pystr_eqb_refl in E. discriminate.
Qed.

(** X23.  An update reaches the first entry with the given id and no
    other: the entries before and after it, later ones with the same id
    included, stay as they are.  The entry reached takes every key of
    the body, ['id'] and ['created_at'] included, while ['updated_at']
    is always the server's time; keys the body does not name keep their
    values. *)
Theorem update_stock_first_match
  (t : Z) (stock_id : pystr) (updates : dict) (f : disk)
  (pre post : list json) (d : dict) :
  stocks_of f = Some (pre ++ JObj d :: post) ->
  Forall (fun s => readable s /\ has_id stock_id s = false) pre ->
  has_id stock_id (JObj d) = true ->
  exists d',
    fst (update_stock isoformat t stock_id updates f) = Ok tt /\
    stocks_of (snd (update_stock isoformat t stock_id updates f)) =
      Some (pre ++ JObj d' :: post) /\
    forall k,
      dict_get k d' =
      if PyStr.eqb K_updated_at k then Some (JStr (isoformat t))
      else match dict_get k (rev updates) with
           | Some v => Some v
           | None => dict_get k d
           end.
Proof.
  intros Hl Hpre Hd. destruct (stocks_of_shape f _ Hl) as (doc & Hdoc & Hs).
  exists (dict_set K_updated_at (JStr (isoformat t)) (dict_update d updates)).
  unfold update_stock, subscript, updated_stocks. rewrite Hdoc, Hs.
  rewrite (update_first_match isoformat t stock_id updates pre d post Hpre Hd).
  cbn [fst snd]. split; [reflexivity|].
  split; [apply stocks_of_saved; reflexivity | apply updated_fields].
Qed.

(** X24.  An update whose id no entry carries reports success all the
    same and leaves the document as it reads. *)
Theorem update_stock_unknown_id
  (t : Z) (stock_id : pystr) (updates : dict) (f : disk) (l : list json) :
  stocks_of f = Some l ->
  Forall (fun s => readable s /\ has_id stock_id s = false) l ->
  update_stock isoformat t stock_id updates f = (Ok tt, Some (load_data f)).
Proof.
  intros Hl Hno. destruct (stocks_of_shape f _ Hl) as (doc & Hdoc & Hs).
  unfold update_stock, subscript, updated_stocks. rewrite Hdoc, Hs.
  rewrite (update_first_no_match isoformat t stock_id updates l Hno).
  unfold save_data, with_stocks. rewrite (dict_set_same_value _ _ _ Hs). reflexivity.
Qed.

(** X25.  A request that fails leaves [data.json] as it was: each route
    writes the file last. *)
Theorem failed_request_keeps_file
  (t t' : Z) (stock_id : pystr) (body : dict) (f : disk) (e : exn) :
  (fst (add_stock isoformat t t' body f) = Raise e ->
   snd (add_stock isoformat t t' body f) = f) /\
  (fst (update_stock isoformat t stock_id body f) = Raise e ->
   snd (update_stock isoformat t stock_id body f) = f) /\
  (fst (delete_stock stock_id f) = Raise e ->
   snd (delete_stock stock_id f) = f).
Proof.
  repeat split.
  - unfold add_stock. destruct (subscript (load_data f) K_stocks) as [[| | | | |]|];
      cbn [fst snd]; congruence.
  - unfold update_stock. destruct (subscript (load_data f) K_stocks) as [v|];
      [destruct (updated_stocks isoformat t stock_id body v)|]; cbn [fst snd]; congruence.
  - unfold delete_stock. destruct (subscript (load_data f) K_stocks) as [v|];
      [destruct (iterate v) as [l|]; [destruct (keep_others stock_id l)|]|];
      cbn [fst snd]; congruence.
Qed.

(** X26.  Adding an entry and deleting it by the id of the answer gives
    the watchlist back, when no earlier entry carries that id. *)
Theorem add_then_delete (t_id t_created : Z) (body : dict) (f : disk) (l : list json) :
  stocks_of f = Some l ->
  Forall (fun s => readable s /\ has_id (new_id t_id) s = false) l ->
  stocks_of (snd (delete_stock (new_id t_id)
                    (snd (add_stock isoformat t_id t_created body f)))) = Some l.
Proof.
  intros Hl Hno.
  destruct (add_stock_runs t_id t_created body f l Hl) as (d & Hd & ->). cbn [snd].
  pose proof (stamped_id t_id t_created body) as Hid.
  assert (Hr : Forall readable (l ++ [JObj (stamped isoformat t_id t_created body)])).
  { apply Forall_app. split.
    - eapply Forall_impl; [|exact Hno]. intros s [Hs _]. exact Hs.
    - repeat constructor. exists (JStr (new_id t_id)). unfold subscript. rewrite Hid.
      reflexivity. }
  destruct (delete_stock_runs (new_id t_id) _ _
              (stocks_of_saved d _ _ eq_refl) Hr) as (d' & _ & ->). cbn [snd].
  rewrite (stocks_of_saved d' _ _ eq_refl).
  f_equal. rewrite filter_app. simpl.
  unfold has_id at 2, subscript. rewrite Hid. simpl. rewrite pystr_eqb_refl. simpl.
  rewrite app_nil_r. clear - Hno.
  induction Hno as [|s l [_ Hn] _ IH]; simpl; [reflexivity|].
  rewrite Hn. simpl. rewrite IH. reflexivity.
Qed.

Lemma uint_chars_inj (u v : Decimal.uint) : uint_chars u = uint_chars v -> u = v.
Proof.
  revert v. induction u; intros [] Hv; simpl in Hv; try discriminate;
    try reflexivity; injection Hv as Hv; f_equal; apply IHu, Hv.
Qed.

Lemma uint_chars_digits (u : Decimal.uint) : ~ In 0x2d%N (uint_chars u).
Proof.
  induction u; simpl; [tauto | ..]; intros [Habs | Hin];
    first [discriminate | exact (IHu Hin)].
Qed.

Lemma str_of_int_inj (n m : Z) : str_of_int n = str_of_int m -> n = m.
Proof.
  unfold str_of_int. intros Hs. apply DecimalZ.to_int_inj.
  destruct (Z.to_int n) as [u | u], (Z.to_int m) as [v | v].
  - f_equal. apply uint_chars_inj, Hs.
  - exfalso. apply (uint_chars_digits u). rewrite Hs. left. reflexivity.
  - exfalso. apply (uint_chars_digits v). rewrite <- Hs. left. reflexivity.
  - injection Hs as Hs. f_equal. apply uint_chars_inj, Hs.
Qed.

(** X27.  Ids are not unique: two entries get the same id exactly when
    the clock readings of their requests fall in the same millisecond,
    and one delete by that id then removes both of them. *)
Theorem same_millisecond_same_id
  (t1 t1' t2 t2' : Z) (body1 body2 : dict) (f : disk) (l : list json) :
  stocks_of f = Some l ->
  Forall readable l ->
  (new_id t1 = new_id t2 <-> Z.quot t1 1000 = Z.quot t2 1000) /\
  (Z.quot t1 1000 = Z.quot t2 1000 ->
   stocks_of (snd (delete_stock (new_id t1)
                     (snd (add_stock isoformat t2 t2' body2
                             (snd (add_stock isoformat t1 t1' body1 f)))))) =
   Some (filter (fun s => negb (has_id (new_id t1) s)) l)).
Proof.
  intros Hl Hr. split.
  - unfold new_id. split; [apply str_of_int_inj | intros ->; reflexivity].
  - intros Hms.
    assert (Hid : new_id t2 = new_id t1) by (unfold new_id; rewrite Hms; reflexivity).
    destruct (add_stock_runs t1 t1' body1 f l Hl) as (d & Hd & ->). cbn [snd].
    set (e1 := JObj (stamped isoformat t1 t1' body1)).
    destruct (add_stock_runs t2 t2' body2 _ _ (stocks_of_saved d _ (l ++ [e1]) eq_refl))
      as (d2 & Hd2 & ->). cbn [snd].
    set (e2 := JObj (stamped isoformat t2 t2' body2)).
    assert (H1 : has_id (new_id t1) e1 = true).
    { unfold has_id, e1, subscript. rewrite stamped_id. apply pystr_eqb_refl. }
    assert (H2 : has_id (new_id t1) e2 = true).
    { unfold has_id, e2, subscript. rewrite stamped_id, Hid. apply pystr_eqb_refl. }
    assert (Hr' : Forall readable ((l ++ [e1]) ++ [e2])).
    { repeat (apply Forall_app; split); try exact Hr; repeat constructor.
      - exists (JStr (new_id t1)). unfold e1, subscript. rewrite stamped_id. reflexivity.
      - exists (JStr (new_id t2)). unfold e2, subscript. rewrite stamped_id. reflexivity. }
    destruct (delete_stock_runs (new_id t1) _ _
                (stocks_of_saved d2 _ ((l ++ [e1]) ++ [e2]) eq_refl) Hr')
      as (d3 & _ & ->). cbn [snd].
    rewrite (stocks_of_saved d3 _ _ eq_refl). f_equal.
    rewrite !filter_app. simpl. rewrite H1, H2. simpl. rewrite !app_nil_r. reflexivity.
Qed.

End Routes.

(** * Column lookup by keywords *)

Section FindCol.

Context {cell : Type}.

(** X28.  The column lookup returns a label of the table.  The first
    label that contains every keyword wins over any label, earlier ones
    included, that contains only some of them; without such a label the
    first one that contains at least one keyword is returned; and
    nothing is returned exactly when no label contains any keyword (with
    no keywords at all the first label is returned). *)
Theorem find_col_rule (df : frame cell) (keywords : list pystr) :
  let all_in col := forallb (fun kw => contains col kw) keywords in
  let any_in col := existsb (fun kw => contains col kw) keywords in
  match _find_col df keywords with
  | Some col =>
      In col (columns df) /\
      (find all_in (columns df) = Some col \/
       (forall c, In c (columns df) -> all_in c = false) /\
       find any_in (columns df) = Some col /\ any_in col = true)
  | None =>
      forall c, In c (columns df) ->
                keywords <> [] /\ forall kw, In kw keywords -> contains c kw = false
  end.
Proof.
  intros all_in any_in. unfold _find_col. fold all_in. fold any_in.
  destruct (find all_in (columns df)) as [col |] eqn:Hall.
  - split; [apply (find_some _ _ Hall) | left; reflexivity].
  - pose proof (find_none _ _ Hall) as Hnone.
    destruct (find any_in (columns df)) as [col |] eqn:Hany.
    + pose proof (find_some _ _ Hany) as [Hin Hp]. split; [exact Hin|].
      right. repeat split; assumption.
    + pose proof (find_none _ _ Hany) as Hnone'. intros c Hc. split.
      * intros ->. specialize (Hnone c Hc). discriminate.
      * intros kw Hkw. specialize (Hnone' c Hc). unfold any_in in Hnone'.
        destruct (contains c kw) eqn:E; [|reflexivity].
        assert (Hex : existsb (fun kw => contains c kw) keywords = true).
        { apply existsb_exists. exists kw. split; assumption. }
        congruence.
Qed.

End FindCol.

(** * Worked cases *)

(** A post whose body names an id of its own: the server's id stands. *)
Lemma add_stock_appends_witness :
  exists stock,
    fst (add_stock Cases.iso Cases.t_post Cases.t_next Cases.body Cases.shelf)
      = Ok (JObj stock) /\
    stocks_of (snd (add_stock Cases.iso Cases.t_post Cases.t_next Cases.body Cases.shelf))
      = Some (Cases.entries ++ [JObj stock]) /\
    dict_get K_id stock = Some (JStr (u8 "1719835200123")) /\
    dict_get K_created_at stock = Some (JStr (u8 "2024-07-01T12:00:00.123999")).
Proof.
  destruct (add_stock_appends Cases.iso Cases.t_post Cases.t_next Cases.body Cases.shelf
              Cases.entries eq_refl) as (stock & H1 & H2 & H3 & H4 & _).
  exists stock. repeat split; assumption.
Defined.

(** One delete removes the two entries that share an id. *)
Lemma delete_stock_removes_witness :
  stocks_of (snd (delete_stock (u8 "1719800000000") Cases.shelf)) =
  Some [JObj (Cases.entry "1719800000001" "00700")].
Proof.
  refine (proj1 (proj2 (delete_stock_removes (u8 "1719800000000") Cases.shelf
                          Cases.entries eq_refl _))).
  repeat (apply Forall_cons; [eexists; reflexivity|]). apply Forall_nil.
Defined.

(** The update of an id two entries share reaches the first of them
    only, and replaces its id by the one of the body. *)
Lemma update_stock_first_match_witness :
  exists d',
    stocks_of (snd (update_stock Cases.iso Cases.t_post (u8 "1719800000000")
                      Cases.body Cases.shelf))
      = Some (JObj d' :: tl Cases.entries) /\
    dict_get K_id d' = Some (JStr (u8 "mine")) /\
    dict_get K_updated_at d' = Some (JStr (u8 "2024-07-01T12:00:00.123456")).
Proof.
  destruct (update_stock_first_match Cases.iso Cases.t_post (u8 "1719800000000")
              Cases.body Cases.shelf [] (tl Cases.entries)
              (Cases.entry "1719800000000" "600519") eq_refl (Forall_nil _) eq_refl)
    as (d' & _ & H2 & H3).
  exists d'. split; [exact H2|]. split; [apply (H3 K_id) | apply (H3 K_updated_at)].
Defined.

Lemma update_stock_unknown_id_witness :
  update_stock Cases.iso Cases.t_post (u8 "0") Cases.body Cases.shelf = (Ok tt, Cases.shelf).
Proof.
  refine (update_stock_unknown_id Cases.iso Cases.t_post (u8 "0") Cases.body Cases.shelf
            Cases.entries eq_refl _).
  repeat (apply Forall_cons; [split; [eexists; reflexivity | reflexivity]|]).
  apply Forall_nil.
Defined.

Lemma add_then_delete_witness :
  stocks_of (snd (delete_stock (u8 "1719835200123")
                    (snd (add_stock Cases.iso Cases.t_post Cases.t_next Cases.body
                            Cases.shelf)))) = Some Cases.entries.
Proof.
  refine (add_then_delete Cases.iso Cases.t_post Cases.t_next Cases.body Cases.shelf
            Cases.entries eq_refl _).
  repeat (apply Forall_cons; [split; [eexists; reflexivity | reflexivity]|]).
  apply Forall_nil.
Defined.

(** Two posts 543 microseconds apart, then one delete. *)
Lemma same_millisecond_same_id_witness :
  new_id Cases.t_post = new_id Cases.t_next /\
  stocks_of (snd (delete_stock (u8 "1719835200123")
                    (snd (add_stock Cases.iso Cases.t_next Cases.t_next Cases.body
                            (snd (add_stock Cases.iso Cases.t_post Cases.t_post [] 
                                    (Some (JObj [(K_stocks, JArr [])])))))))) = Some [].
Proof.
  destruct (same_millisecond_same_id Cases.iso Cases.t_post Cases.t_post Cases.t_next
              Cases.t_next [] Cases.body (Some (JObj [(K_stocks, JArr [])])) []
              eq_refl (Forall_nil _)) as [Hid Hdel].
  split; [apply Hid; reflexivity | apply Hdel; reflexivity].
Defined.

(** A name found in a fresh cache: the cached code and name, the live price. *)
Lemma a_name_search_rule_witness :
  exists i,
    fst (search_a_stock market (u8 "茅台") (cached 1 [Cases.maotai_entry])) = Ok (Some i) /\
    symbol i = u8 "600519" /\ name i = u8 "贵州茅台" /\
    (forall live,
       fst (_get_a_stock_by_code market (u8 "600519")
              (Spec.logged [Invoked (Resolver_A (u8 "茅台"))]
                           (cached 1 [Cases.maotai_entry]))) = Ok live ->
       current_price i = current_price live) /\
    (forall e',
       fst (_get_a_stock_by_code market (u8 "600519")
              (Spec.logged [Invoked (Resolver_A (u8 "茅台"))]
                           (cached 1 [Cases.maotai_entry]))) = Raise e' ->
       current_price i = None).
Proof.
  exact (a_name_search_rule market (u8 "茅台") (cached 1 [Cases.maotai_entry])
           (Spec.logged [Invoked (Resolver_A (u8 "茅台"))] (cached 1 [Cases.maotai_entry]))
           [Cases.maotai_entry] eq_refl eq_refl).
Defined.

Lemma a_digit_query_witness :
  search_a_stock market (u8 "600519") blank =
  (Ok (Some Cases.maotai),
   Spec.logged [Fetched (stock_individual_info_em (u8 "600519"));
                Invoked (Resolver_A (u8 "600519"))] blank) /\
  symbol Cases.maotai = u8 "600519".
Proof.
  exact (proj1 (a_digit_query market (u8 "600519") blank eq_refl) Cases.maotai eq_refl).
Defined.

(** A first load from the provider, and the loads that follow it. *)
Lemma cache_serves_later_loads_witness :
  exists art,
    cache_a (snd (_load_a_cache Cases.listed blank)) = Some art /\
    payload art = [Cases.maotai_entry] /\
    forall w' : world scell,
      (now w' - mtime art < 24 * 3600)%Z ->
      _load_a_cache w' (snd (_load_a_cache Cases.listed blank)) =
      (Ok [Cases.maotai_entry], snd (_load_a_cache Cases.listed blank)).
Proof.
  assert (Hrun : _load_a_cache Cases.listed blank =
                 (Ok [Cases.maotai_entry], snd (_load_a_cache Cases.listed blank)))
    by reflexivity.
  destruct (proj1 (cache_serves_later_loads Cases.listed blank
                     (snd (_load_a_cache Cases.listed blank)) [Cases.maotai_entry])
                  Hrun) as (art & H1 & H2 & _ & H4).
  exists art. repeat split; assumption.
Defined.

Lemma project_keeps_rows_witness :
  exists ic inm,
    col_index (columns Cases.snapshot) L_code = Some ic /\
    col_index (columns Cases.snapshot) L_name = Some inm /\
    Forall2 (fun r e =>
               exists c n, nth_error r ic = Some c /\ nth_error r inm = Some n /\
                           e_code e = py_str c /\ e_name e = n)
            (rows Cases.snapshot) [tencent_entry].
Proof. exact (project_keeps_rows Cases.snapshot [tencent_entry] eq_refl). Defined.

(** A payout text whose number ends with the full stop of its sentence. *)
Lemma hk_dividend_unusable_history_witness :
  fst (get_hk_dividend (Cases.payouts Cases.payout_with_full_stop) (u8 "700") blank) =
  Ok (None, [],
      Some (u8 "港股分红获取失败: could not convert string to float: '0.55.'")).
Proof.
  refine (proj2 (proj2 (proj2 (proj2
            (hk_dividend_unusable_history (Cases.payouts Cases.payout_with_full_stop)
               (u8 "700") blank))))
            Cases.payout_with_full_stop
            [nth 0 (rows Cases.payout_with_full_stop) []]
            (nth 1 (rows Cases.payout_with_full_stop) []) []
            (txt "每股派息0.5元,相当于港币0.55.") (ValueError (u8 "0.55."))
            eq_refl eq_refl _ eq_refl _ eq_refl eq_refl).
  - vm_compute. lia.
  - apply Forall_cons; [|apply Forall_nil].
    exists (txt "每股派港币3.4元"), (17 # 5)%Q. split; reflexivity.
Defined.


Lemma hk_dividend_by_padded_symbol_witness :
  fst (get_hk_dividend market (u8 "700") blank) =
  fst (get_hk_dividend market (u8 "00700") (cached 1 [tencent_entry])).
Proof.
  exact (hk_dividend_by_padded_symbol market (u8 "700") (u8 "00700") blank
           (cached 1 [tencent_entry]) eq_refl).
Defined.




(** A snapshot that has lost its name column. *)
Lemma a_search_without_cache_witness :
  search_a_stock Cases.unnamed (u8 "茅台") blank =
  (Ok None, Spec.logged [Fetched stock_zh_a_spot_em; Invoked (Resolver_A (u8 "茅台"))] blank).
Proof.
  refine (a_search_without_cache Cases.unnamed (u8 "茅台") blank eq_refl eq_refl _).
  exists (KeyError L_name). reflexivity.
Defined.
